(** * Directus Terraform provider: payload mappers, path resolution and the
      role-policies reconciler, embedded from the Go sources. *)

From Stdlib Require Import ZArith String Ascii List Lia.
From stdpp Require Import gmap strings list fin_maps sorting.
Import ListNotations.

#[local] Open Scope string_scope.
#[local] Open Scope list_scope.
#[local] Set Warnings "-register-all".

(** ** Go's [strings] package, as far as the provider uses it.

    A Go string is a byte sequence; [string] (a list of [ascii] bytes) is
    the same data. *)
Module Strings.

(** Build a byte string from byte values. *)
Definition bytes (l : list nat) : list ascii := map ascii_of_nat l.

(** The UTF-8 encodings of the runes for which [unicode.IsSpace] holds:
    the six ASCII ones of the [asciiSpace] table, U+0085, U+00A0, U+1680,
    U+2000..U+200A, U+2028, U+2029, U+202F, U+205F and U+3000. *)
Definition spaceRunes : list (list ascii) :=
  map bytes
    [ [9]; [10]; [11]; [12]; [13]; [32];
      [194; 133]; [194; 160];
      [225; 154; 128];
      [226; 128; 128]; [226; 128; 129]; [226; 128; 130]; [226; 128; 131];
      [226; 128; 132]; [226; 128; 133]; [226; 128; 134]; [226; 128; 135];
      [226; 128; 136]; [226; 128; 137]; [226; 128; 138];
      [226; 128; 168]; [226; 128; 169]; [226; 128; 175];
      [226; 129; 159];
      [227; 128; 128] ].

(** [stripPrefix p l] is the rest of [l] after its prefix [p], if [p] is one. *)
Fixpoint stripPrefix (p l : list ascii) : option (list ascii) :=
  match p, l with
  | [], _ => Some l
  | _ :: _, [] => None
  | a :: p', b :: l' => if Ascii.eqb a b then stripPrefix p' l' else None
  end.

(** Drop one leading space rune, trying each encoding in turn. *)
Fixpoint dropRune (runes : list (list ascii)) (l : list ascii)
  : option (list ascii) :=
  match runes with
  | [] => None
  | r :: rs =>
      match stripPrefix r l with
      | Some rest => Some rest
      | None => dropRune rs l
      end
  end.

(** The scanning loop of [TrimLeftFunc]: at most [n] runes are dropped. *)
Fixpoint trimLoop (runes : list (list ascii)) (n : nat) (l : list ascii)
  : list ascii :=
  match n with
  | O => l
  | S n' =>
      match dropRune runes l with
      | Some rest => trimLoop runes n' rest
      | None => l
      end
  end.

Definition trimLeft (runes : list (list ascii)) (l : list ascii) : list ascii :=
  trimLoop runes (length l) l.

(** [strings.TrimSpace]: leading and trailing white space removed, as
    [unicode.IsSpace] defines it.  The trailing scan reads the string
    backwards, so it runs on the reversed bytes with reversed encodings. *)
Definition TrimSpace (s : string) : string :=
  let front := trimLeft spaceRunes (list_ascii_of_string s) in
  let back := trimLeft (map (@rev ascii) spaceRunes) (rev front) in
  string_of_list_ascii (rev back).

(** [strings.Split(s, sep)] for a separator of one byte: the fields between
    the occurrences of [sep]; always at least one field. *)
Fixpoint Split (s : string) (sep : ascii) : list string :=
  match s with
  | EmptyString => [""]
  | String c rest =>
      if Ascii.eqb c sep then "" :: Split rest sep
      else match Split rest sep with
           | field :: fields => String c field :: fields
           | [] => [String c ""]
           end
  end.

(** [strings.Join(elems, sep)]. *)
Fixpoint Join (elems : list string) (sep : string) : string :=
  match elems with
  | [] => ""
  | [x] => x
  | x :: rest => x +:+ sep +:+ Join rest sep
  end.

(** Whether the byte [c] occurs in [s], as [strings.IndexByte(s, c) >= 0]. *)
Fixpoint Contains (s : string) (c : ascii) : bool :=
  match s with
  | EmptyString => false
  | String d rest => Ascii.eqb d c || Contains rest c
  end.

End Strings.


(** ** The Terraform plugin framework's attribute values ([types] package):
    every attribute is null, unknown, or a known value. *)
Module types.

Inductive TString := StringNull | StringUnknown | StringValue (s : string).
Inductive TBool := BoolNull | BoolUnknown | BoolValue (b : bool).
Inductive TList := ListNull | ListUnknown | ListValue (elems : list string).
Inductive TSet := SetNull | SetUnknown | SetValue (elems : list string).

(** The [attr.Value] interface, as far as the provider calls it. *)
Class AttrValue (T : Type) := {
  IsNull : T -> bool;
  IsUnknown : T -> bool
}.

#[export] Instance TString_AttrValue : AttrValue TString := {|
  IsNull v := match v with StringNull => true | _ => false end;
  IsUnknown v := match v with StringUnknown => true | _ => false end
|}.

#[export] Instance TBool_AttrValue : AttrValue TBool := {|
  IsNull v := match v with BoolNull => true | _ => false end;
  IsUnknown v := match v with BoolUnknown => true | _ => false end
|}.

#[export] Instance TList_AttrValue : AttrValue TList := {|
  IsNull v := match v with ListNull => true | _ => false end;
  IsUnknown v := match v with ListUnknown => true | _ => false end
|}.

#[export] Instance TSet_AttrValue : AttrValue TSet := {|
  IsNull v := match v with SetNull => true | _ => false end;
  IsUnknown v := match v with SetUnknown => true | _ => false end
|}.

(** [ValueString] is the empty string for a null or unknown value. *)
Definition ValueString (v : TString) : string :=
  match v with StringValue s => s | _ => "" end.

(** [ValueBool] is false for a null or unknown value. *)
Definition ValueBool (v : TBool) : bool :=
  match v with BoolValue b => b | _ => false end.

(** [Set.ElementsAs(ctx, &target, false)] into a [[]string]: the elements
    of a known set, in their order; a null set gives the nil slice, an
    unknown set is an error diagnostic ([None]). *)
Definition ElementsAs (v : TSet) : option (list string) :=
  match v with
  | SetValue elems => Some elems
  | SetNull => Some []
  | SetUnknown => None
  end.

End types.
Import types.

(** ** Request payloads: the values the provider stores in a
    [map[string]interface{}] before it is marshalled to JSON. *)
Inductive Value :=
| VNil                                   (* nil, marshalled as null *)
| VString (s : string)
| VBool (b : bool)
| VStrings (l : list string)             (* []string *)
| VMaps (l : list (gmap string Value))   (* []map[string]interface{} *)
| VMap (m : gmap string Value).          (* map[string]interface{} *)

(** ** internal/provider/helpers.go *)

(** setStringField adds a string field to the input map if it's not
    null/unknown. *)
Definition setStringField (input : gmap string Value) (key : string)
    (value : TString) : gmap string Value :=
  if negb (IsNull value) && negb (IsUnknown value)
  then <[key := VString (ValueString value)]> input
  else input.

(** setNullableStringField explicitly sends null when the value is null. *)
Definition setNullableStringField (input : gmap string Value) (key : string)
    (value : TString) : gmap string Value :=
  if IsUnknown value then input
  else if IsNull value then <[key := VNil]> input
  else <[key := VString (ValueString value)]> input.

(** setBoolField adds a bool field to the input map if it's not
    null/unknown. *)
Definition setBoolField (input : gmap string Value) (key : string)
    (value : TBool) : gmap string Value :=
  if negb (IsNull value) && negb (IsUnknown value)
  then <[key := VBool (ValueBool value)]> input
  else input.

(** stringOrNull returns null for the empty string. *)
Definition stringOrNull (s : string) : TString :=
  if bool_decide (s ≠ "") then StringValue s else StringNull.

(** stringListOrNull returns null for an empty slice. *)
Definition stringListOrNull (items : list string) : TList :=
  if (0 <? length items)%nat then ListValue items else ListNull.

(** ** internal/provider/role_resource.go *)

Record RoleResourceModel := {
  role_ID : TString;
  role_Name : TString;
  role_Icon : TString;
  role_Description : TString;
  role_Parent : TString;
  role_Children : TList;
  role_Users : TList
}.

(** buildRoleInput constructs the input from the resource model (used for
    both create and update). *)
Definition buildRoleInput (data : RoleResourceModel) (isCreate : bool)
    : gmap string Value :=
  let input : gmap string Value := ∅ in
  let input :=
    if isCreate then <["name" := VString (ValueString (role_Name data))]> input
    else setStringField input "name" (role_Name data) in
  let input := setStringField input "icon" (role_Icon data) in
  let input := setStringField input "description" (role_Description data) in
  let input :=
    if negb isCreate then setNullableStringField input "parent" (role_Parent data)
    else setStringField input "parent" (role_Parent data) in
  input.

(** ** The collection resource (buildCollectionInput) *)

Record CollectionResourceModel := {
  coll_Collection : TString;
  coll_Icon : TString;
  coll_Note : TString;
  coll_Hidden : TBool;
  coll_Singleton : TBool;
  coll_SortField : TString;
  coll_Archive : TString;
  coll_Color : TString
}.

(** buildCollectionInput constructs the input from the resource model (used
    for both create and update). *)
Definition buildCollectionInput (data : CollectionResourceModel)
    (isCreate : bool) : gmap string Value :=
  let input : gmap string Value := ∅ in
  let input :=
    if isCreate then
      let input := <["collection" := VString (ValueString (coll_Collection data))]> input in
      <["schema" := VMap ∅]> input
    else input in
  let meta : gmap string Value := ∅ in
  let meta := setStringField meta "icon" (coll_Icon data) in
  let meta := setStringField meta "note" (coll_Note data) in
  let meta := setBoolField meta "hidden" (coll_Hidden data) in
  let meta := setBoolField meta "singleton" (coll_Singleton data) in
  let meta := setStringField meta "sort_field" (coll_SortField data) in
  let meta := setStringField meta "archive_field" (coll_Archive data) in
  let meta := setStringField meta "color" (coll_Color data) in
  if (0 <? size meta)%nat then <["meta" := VMap meta]> input else input.

(** ** The policy resource *)

Record PolicyResourceModel := {
  pol_ID : TString;
  pol_Name : TString;
  pol_Icon : TString;
  pol_Description : TString;
  pol_IPAccess : TString;
  pol_EnforceTFA : TBool;
  pol_AdminAccess : TBool;
  pol_AppAccess : TBool
}.

(** policyAPIResponse represents the API response for policy operations. *)
Record policyAPIResponse := {
  api_ID : string;
  api_Name : string;
  api_Icon : string;
  api_Description : string;
  api_IPAccess : list string;
  api_EnforceTFA : bool;
  api_AdminAccess : bool;
  api_AppAccess : bool
}.

(** toModel converts policyAPIResponse to PolicyResourceModel; the
    ip_access array becomes a comma-separated string. *)
Definition toModel (p : policyAPIResponse) : PolicyResourceModel :=
  let ipAccess :=
    if (0 <? length (api_IPAccess p))%nat
    then StringValue (Strings.Join (api_IPAccess p) ",")
    else StringNull in
  {| pol_ID := StringValue (api_ID p);
     pol_Name := StringValue (api_Name p);
     pol_Icon := stringOrNull (api_Icon p);
     pol_Description := stringOrNull (api_Description p);
     pol_IPAccess := ipAccess;
     pol_EnforceTFA := BoolValue (api_EnforceTFA p);
     pol_AdminAccess := BoolValue (api_AdminAccess p);
     pol_AppAccess := BoolValue (api_AppAccess p) |}.

(** setIPAccessField converts the CSV ip_access string to a JSON array for
    the Directus API. *)
Definition setIPAccessField (input : gmap string Value) (value : TString)
    : gmap string Value :=
  if IsNull value || IsUnknown value then input
  else
    let csv := ValueString value in
    if bool_decide (csv = "") then input
    else
      let parts := Strings.Split csv "," in
      let trimmed :=
        foldl (fun trimmed p =>
                 let s := Strings.TrimSpace p in
                 if bool_decide (s ≠ "") then trimmed ++ [s] else trimmed)
              [] parts in
      if (0 <? length trimmed)%nat then <["ip_access" := VStrings trimmed]> input
      else input.

(** The request body PolicyResource.Create builds from the plan. *)
Definition policyCreateBody (plan : PolicyResourceModel) : gmap string Value :=
  let reqBody : gmap string Value :=
    {[ "name" := VString (ValueString (pol_Name plan)) ]} in
  let reqBody := setStringField reqBody "icon" (pol_Icon plan) in
  let reqBody := setStringField reqBody "description" (pol_Description plan) in
  let reqBody := setIPAccessField reqBody (pol_IPAccess plan) in
  let reqBody := setBoolField reqBody "enforce_tfa" (pol_EnforceTFA plan) in
  let reqBody := setBoolField reqBody "admin_access" (pol_AdminAccess plan) in
  let reqBody := setBoolField reqBody "app_access" (pol_AppAccess plan) in
  reqBody.

(** The request body PolicyResource.Update builds from the plan. *)
Definition policyUpdateBody (plan : PolicyResourceModel) : gmap string Value :=
  let reqBody : gmap string Value := ∅ in
  let reqBody := setStringField reqBody "name" (pol_Name plan) in
  let reqBody := setStringField reqBody "icon" (pol_Icon plan) in
  let reqBody := setStringField reqBody "description" (pol_Description plan) in
  let reqBody := setIPAccessField reqBody (pol_IPAccess plan) in
  let reqBody := setBoolField reqBody "enforce_tfa" (pol_EnforceTFA plan) in
  let reqBody := setBoolField reqBody "admin_access" (pol_AdminAccess plan) in
  let reqBody := setBoolField reqBody "app_access" (pol_AppAccess plan) in
  reqBody.

(** ** Go's [net/url]: query-string encoding, as [GetWithParams] uses it. *)
Module url.

Definition upperhex (n : nat) : ascii :=
  nth n (list_ascii_of_string "0123456789ABCDEF") "0"%char.

(** [shouldEscape] in the query-component mode: only letters, digits and
    [-_.~] stay as they are. *)
Definition shouldEscape (c : ascii) : bool :=
  let n := nat_of_ascii c in
  negb (((97 <=? n) && (n <=? 122)) || ((65 <=? n) && (n <=? 90))
        || ((48 <=? n) && (n <=? 57))
        || (n =? 45) || (n =? 95) || (n =? 46) || (n =? 126))%nat.

Fixpoint QueryEscape (s : string) : string :=
  match s with
  | EmptyString => ""
  | String c rest =>
      if Ascii.eqb c " " then String "+" (QueryEscape rest)
      else if shouldEscape c then
        let n := nat_of_ascii c in
        String "%" (String (upperhex (n / 16)) (String (upperhex (n mod 16))
          (QueryEscape rest)))
      else String c (QueryEscape rest)
  end.

(** Keys are compared as byte strings. *)
Definition keyLe (a b : string * string) : Prop := String.leb a.1 b.1 = true.

#[export] Instance keyLe_dec : RelDecision keyLe.
Proof. intros a b. unfold keyLe. apply _. Defined.

(** [Values.Encode] of a query with one value per key: "k=v" pairs, sorted
    by key, joined with "&". *)
Definition Encode (q : gmap string string) : string :=
  let sorted := merge_sort keyLe (map_to_list q) in
  Strings.Join
    (map (fun kv : string * string =>
            QueryEscape kv.1 +:+ "=" +:+ QueryEscape kv.2) sorted)
    "&".

End url.

(** ** internal/client/client.go *)
Module client.

Inductive Method := MethodGet | MethodPost | MethodPatch | MethodDelete.

#[export] Instance Method_eq_dec : EqDecision Method.
Proof. solve_decision. Defined.

(** One HTTP request as [doRequest] hands it to [net/http]: the body is
    kept as the value that [json.Marshal] receives. *)
Record Request := {
  ReqMethod : Method;
  ReqURL : string;
  ReqHeader : list (string * string);
  ReqBody : option Value
}.

Record Response := {
  StatusCode : Z;
  Body : string
}.

(** Client represents a Directus API client.  [HTTPClient] is the remote
    end: from the requests made so far and the next one, it yields the
    response, or the text of the error of [net/http]. *)
Record Client := {
  BaseURL : string;
  HTTPClient : list Request -> Request -> string + Response;
  Token : string
}.

(** The errors of the client.  Their text is not modelled beyond the fixed
    messages of the parameter checks. *)
Inductive error :=
| Errorf (msg : string)                    (* fmt.Errorf with a fixed text *)
| ErrTransport (cause : string)            (* failed to create/send request *)
| ErrStatus (status : Z) (body : string)   (* handleErrorResponse *)
| ErrDecode.                               (* failed to decode response *)

Inductive result (A : Type) :=
| Ok (a : A)
| Err (e : error).
Arguments Ok {A} a.
Arguments Err {A} e.

(** Client code runs against the log of the requests issued so far, and
    either returns a value or an error. *)
Definition M (A : Type) : Type := list Request -> result A * list Request.

Definition ret {A} (a : A) : M A := fun tr => (Ok a, tr).
Definition fail {A} (e : error) : M A := fun tr => (Err e, tr).
Definition bind {A B} (m : M A) (k : A -> M B) : M B :=
  fun tr =>
    match m tr with
    | (Ok a, tr') => k a tr'
    | (Err e, tr') => (Err e, tr')
    end.

Notation "'let*' x ':=' m 'in' k" := (bind m (fun x => k))
  (at level 10, x name, m at level 100, k at level 200).

(** handleErrorResponse parses and returns an error from the response. *)
Definition handleErrorResponse (resp : Response) : error :=
  ErrStatus (StatusCode resp) (Body resp).

(** The request [doRequest] builds: the URL is the base URL followed by the
    path, with the JSON content type and the bearer token as headers. *)
Definition newRequest (c : Client) (method : Method) (path : string)
    (body : option Value) : Request :=
  let fullURL := BaseURL c +:+ path in
  {| ReqMethod := method;
     ReqURL := fullURL;
     ReqHeader := [("Content-Type", "application/json");
                   ("Authorization", "Bearer " +:+ Token c)];
     ReqBody := body |}.

(** doRequest performs an HTTP request with authentication.  The request is
    logged as it is handed to [net/http]; a status of 400 or more is an
    error. *)
Definition doRequest (c : Client) (method : Method) (path : string)
    (body : option Value) : M Response :=
  fun tr =>
    let req := newRequest c method path body in
    match HTTPClient c tr req with
    | inl err => (Err (ErrTransport err), tr ++ [req])
    | inr resp =>
        if (400 <=? StatusCode resp)%Z
        then (Err (handleErrorResponse resp), tr ++ [req])
        else (Ok resp, tr ++ [req])
    end.

Definition systemCollections : gmap string bool :=
  list_to_map
    [ ("collections", true); ("roles", true); ("policies", true);
      ("users", true); ("folders", true); ("files", true);
      ("activity", true); ("revisions", true); ("webhooks", true);
      ("flows", true); ("operations", true); ("dashboards", true);
      ("panels", true); ("shares", true); ("settings", true) ].

(** buildCollectionPath builds the correct API path for a collection:
    system collections use /{collection}, custom ones /items/{collection}. *)
Definition buildCollectionPath (collection id : string) : string :=
  if default false (systemCollections !! collection) then
    if bool_decide (id ≠ "") then "/" +:+ collection +:+ "/" +:+ id
    else "/" +:+ collection
  else
    if bool_decide (id ≠ "") then "/items/" +:+ collection +:+ "/" +:+ id
    else "/items/" +:+ collection.

(** [json.NewDecoder(resp.Body).Decode(result)]: the caller's [decode]
    stands for the shape behind its [result] pointer. *)
Definition decodeInto {A} (decode : string -> option A) (resp : Response)
    : M A :=
  match decode (Body resp) with
  | Some v => ret v
  | None => fail ErrDecode
  end.

(** Get retrieves a single item from a collection. *)
Definition Get {A} (c : Client) (collection id : string)
    (decode : string -> option A) : M A :=
  if bool_decide (collection = "") then fail (Errorf "collection is required")
  else if bool_decide (id = "") then fail (Errorf "id is required")
  else
    let path := buildCollectionPath collection id in
    let* resp := doRequest c MethodGet path None in
    decodeInto decode resp.

(** GetWithParams retrieves a single item from a collection with query
    parameters. *)
Definition GetWithParams {A} (c : Client) (collection id : string)
    (params : gmap string string) (decode : string -> option A) : M A :=
  if bool_decide (collection = "") then fail (Errorf "collection is required")
  else if bool_decide (id = "") then fail (Errorf "id is required")
  else
    let path := buildCollectionPath collection id in
    let path :=
      if (0 <? size params)%nat then path +:+ "?" +:+ url.Encode params
      else path in
    let* resp := doRequest c MethodGet path None in
    decodeInto decode resp.

(** List retrieves multiple items from a collection. *)
Definition List {A} (c : Client) (collection : string)
    (decode : string -> option A) : M A :=
  if bool_decide (collection = "") then fail (Errorf "collection is required")
  else
    let path := buildCollectionPath collection "" in
    let* resp := doRequest c MethodGet path None in
    decodeInto decode resp.

(** Create creates a new item in a collection.  [data] is [None] for a nil
    payload; [result] is [None] for a nil result pointer. *)
Definition Create {A} (c : Client) (collection : string)
    (data : option Value) (result : option (string -> option A))
    : M (option A) :=
  if bool_decide (collection = "") then fail (Errorf "collection is required")
  else if bool_decide (data = None) then fail (Errorf "data is required")
  else
    let path := buildCollectionPath collection "" in
    let* resp := doRequest c MethodPost path data in
    match result with
    | Some decode => let* v := decodeInto decode resp in ret (Some v)
    | None => ret None
    end.

(** Update updates an existing item in a collection. *)
Definition Update {A} (c : Client) (collection id : string)
    (data : option Value) (result : option (string -> option A))
    : M (option A) :=
  if bool_decide (collection = "") then fail (Errorf "collection is required")
  else if bool_decide (id = "") then fail (Errorf "id is required")
  else if bool_decide (data = None) then fail (Errorf "data is required")
  else
    let path := buildCollectionPath collection id in
    let* resp := doRequest c MethodPatch path data in
    match result with
    | Some decode => let* v := decodeInto decode resp in ret (Some v)
    | None => ret None
    end.

(** Delete deletes an item from a collection. *)
Definition Delete (c : Client) (collection id : string) : M unit :=
  if bool_decide (collection = "") then fail (Errorf "collection is required")
  else if bool_decide (id = "") then fail (Errorf "id is required")
  else
    let path := buildCollectionPath collection id in
    let* _ := doRequest c MethodDelete path None in
    ret tt.

(** Config holds the configuration for creating a new client.  The timeout
    is a [time.Duration], a number of nanoseconds. *)
Record Config := {
  cfg_BaseURL : string;
  cfg_Token : string;
  cfg_Timeout : Z
}.

(** NewClient creates a new Directus API client.  [urlParses] stands for
    the success of [url.Parse]; [httpClient timeout] is the remote end as
    seen through an [http.Client] with that timeout. *)
Definition NewClient (urlParses : string -> bool)
    (httpClient : Z -> list Request -> Request -> string + Response)
    (config : Config) : result Client :=
  if bool_decide (cfg_BaseURL config = "") then Err (Errorf "base URL is required")
  else if negb (urlParses (cfg_BaseURL config)) then Err (Errorf "invalid base URL")
  else
    let timeout := cfg_Timeout config in
    let timeout := if (timeout =? 0)%Z then (30 * 1000000000)%Z else timeout in
    if bool_decide (cfg_Token config = "") then Err (Errorf "token is required")
    else Ok {| BaseURL := cfg_BaseURL config;
               HTTPClient := httpClient timeout;
               Token := cfg_Token config |}.

(** Ping checks if the Directus server is reachable.  The body of a
    response is held as read in full. *)
Definition Ping (c : Client) : M unit :=
  let* resp := doRequest c MethodGet "/server/ping" None in
  let body := Body resp in
  if bool_decide (body ≠ "pong") then fail (Errorf "unexpected ping response")
  else ret tt.

End client.

(** ** The role-policies attachment resource *)
Module attachment.
Import client.

(** RolePoliciesAttachmentModel describes the resource data model. *)
Record RolePoliciesAttachmentModel := {
  ID : TString;        (* Equal to role_id *)
  RoleID : TString;    (* The role UUID *)
  PolicyIDs : TSet     (* Set of policy UUIDs *)
}.

(** accessRecordResponse represents a single entry in the directus_access
    junction table. *)
Record accessRecordResponse := {
  rec_ID : string;
  rec_Policy : string
}.

(** roleWithPoliciesResponse is the shape of
    GET /roles/{id}?fields=policies.id,policies.policy *)
Record roleWithPoliciesResponse := {
  rwp_ID : string;
  Policies : list accessRecordResponse
}.

(** The resource holds the client; [decodeRole] stands for the JSON
    decoding of a response body into [struct { Data roleWithPoliciesResponse }]
    ([None] when [encoding/json] rejects the body). *)
Record RolePoliciesAttachmentResource := {
  client : Client;
  decodeRole : string -> option roleWithPoliciesResponse
}.

(** An error diagnostic: its summary, the role it names and its cause.
    [FrameworkError] is a diagnostic of the plugin framework itself. *)
Inductive Diagnostic :=
| AddError (summary : string) (roleID : string) (cause : error)
| FrameworkError.

(** What an operation leaves in its response: the diagnostics, and the state
    it has set, if any. *)
Record Outcome := {
  Diagnostics : list Diagnostic;
  State : option RolePoliciesAttachmentModel
}.

(** readRolePolicies fetches the role with expanded policies and returns the
    access records. *)
Definition readRolePolicies (r : RolePoliciesAttachmentResource)
    (roleID : string) : M (list accessRecordResponse) :=
  let params : gmap string string :=
    {[ "fields" := "id,policies.id,policies.policy" ]} in
  let* result := GetWithParams (client r) "roles" roleID params (decodeRole r) in
  ret (Policies result).

(** Create attaches the specified policies to a role via the role API's
    nested relational operations.  [plan] is the model as [req.Plan.Get]
    has filled it in; the function maps the request log before the call to
    the response and the log after it. *)
Definition Create (r : RolePoliciesAttachmentResource)
    (plan : RolePoliciesAttachmentModel)
    : list Request -> Outcome * list Request :=
  fun tr =>
  let roleID := ValueString (RoleID plan) in
  match ElementsAs (PolicyIDs plan) with
  | None => ({| Diagnostics := [FrameworkError]; State := None |}, tr)
  | Some desiredPolicyIDs =>
  (* Read current policies attached to this role. *)
  match readRolePolicies r roleID tr with
  | (Err err, tr) =>
      ({| Diagnostics := [AddError "Error Reading Role Policies" roleID err];
          State := None |}, tr)
  | (Ok existing, tr) =>
  (* Build map of existing: policyID -> accessID *)
  let existingMap : gmap string string :=
    foldl (fun m rec => <[rec_Policy rec := rec_ID rec]> m) ∅ existing in
  (* Compute policies to add (desired but not yet attached). *)
  let toCreate : list (gmap string Value) :=
    foldl (fun toCreate pid =>
             match existingMap !! pid with
             | None => toCreate ++ [{[ "policy" := VString pid ]}]
             | Some _ => toCreate
             end) [] desiredPolicyIDs in
  (* Compute policies to remove (attached but not desired). *)
  let desiredSet : gmap string bool :=
    foldl (fun m pid => <[pid := true]> m) ∅ desiredPolicyIDs in
  let toDelete : list string :=
    foldl (fun toDelete rec =>
             if negb (default false (desiredSet !! rec_Policy rec))
             then toDelete ++ [rec_ID rec] else toDelete) [] existing in
  let done :=
    {| Diagnostics := [];
       State := Some {| ID := StringValue roleID; RoleID := RoleID plan;
                        PolicyIDs := PolicyIDs plan |} |} in
  (* Apply changes via a single PATCH if needed. *)
  if (0 <? length toCreate)%nat || (0 <? length toDelete)%nat then
    let policiesOp : gmap string Value := ∅ in
    let policiesOp :=
      if (0 <? length toCreate)%nat
      then <["create" := VMaps toCreate]> policiesOp else policiesOp in
    let policiesOp :=
      if (0 <? length toDelete)%nat
      then <["delete" := VStrings toDelete]> policiesOp else policiesOp in
    let patchBody : gmap string Value := {[ "policies" := VMap policiesOp ]} in
    match @client.Update unit (client r) "roles" roleID (Some (VMap patchBody)) None tr with
    | (Err err, tr) =>
        ({| Diagnostics := [AddError "Error Attaching Policies to Role" roleID err];
            State := None |}, tr)
    | (Ok _, tr) => (done, tr)
    end
  else (done, tr)
  end
  end.

(** Update computes the diff between current and desired policies and
    applies it. *)
Definition Update (r : RolePoliciesAttachmentResource)
    (plan : RolePoliciesAttachmentModel)
    : list Request -> Outcome * list Request :=
  fun tr =>
  let roleID := ValueString (RoleID plan) in
  match ElementsAs (PolicyIDs plan) with
  | None => ({| Diagnostics := [FrameworkError]; State := None |}, tr)
  | Some desiredPolicyIDs =>
  (* Read current policies. *)
  match readRolePolicies r roleID tr with
  | (Err err, tr) =>
      ({| Diagnostics := [AddError "Error Reading Role Policies" roleID err];
          State := None |}, tr)
  | (Ok existing, tr) =>
  (* Build map of existing: policyID -> accessID *)
  let existingMap : gmap string string :=
    foldl (fun m rec => <[rec_Policy rec := rec_ID rec]> m) ∅ existing in
  (* Compute policies to add. *)
  let toCreate : list (gmap string Value) :=
    foldl (fun toCreate pid =>
             match existingMap !! pid with
             | None => toCreate ++ [{[ "policy" := VString pid ]}]
             | Some _ => toCreate
             end) [] desiredPolicyIDs in
  (* Compute policies to remove. *)
  let desiredSet : gmap string bool :=
    foldl (fun m pid => <[pid := true]> m) ∅ desiredPolicyIDs in
  let toDelete : list string :=
    foldl (fun toDelete rec =>
             if negb (default false (desiredSet !! rec_Policy rec))
             then toDelete ++ [rec_ID rec] else toDelete) [] existing in
  let done :=
    {| Diagnostics := [];
       State := Some {| ID := StringValue roleID; RoleID := RoleID plan;
                        PolicyIDs := PolicyIDs plan |} |} in
  (* Apply changes via a single PATCH if needed. *)
  if (0 <? length toCreate)%nat || (0 <? length toDelete)%nat then
    let policiesOp : gmap string Value := ∅ in
    let policiesOp :=
      if (0 <? length toCreate)%nat
      then <["create" := VMaps toCreate]> policiesOp else policiesOp in
    let policiesOp :=
      if (0 <? length toDelete)%nat
      then <["delete" := VStrings toDelete]> policiesOp else policiesOp in
    let patchBody : gmap string Value := {[ "policies" := VMap policiesOp ]} in
    match @client.Update unit (client r) "roles" roleID (Some (VMap patchBody)) None tr with
    | (Err err, tr) =>
        ({| Diagnostics := [AddError "Error Updating Policy Attachments" roleID err];
            State := None |}, tr)
    | (Ok _, tr) => (done, tr)
    end
  else (done, tr)
  end
  end.

(** Delete removes all policy attachments from the role. *)
Definition Delete (r : RolePoliciesAttachmentResource)
    (state : RolePoliciesAttachmentModel)
    : list Request -> Outcome * list Request :=
  fun tr =>
  let roleID := ValueString (RoleID state) in
  (* Read current policies to get access record IDs. *)
  match readRolePolicies r roleID tr with
  | (Err err, tr) =>
      ({| Diagnostics := [AddError "Error Reading Role Policies" roleID err];
          State := None |}, tr)
  | (Ok existing, tr) =>
  if (length existing =? 0)%nat then ({| Diagnostics := []; State := None |}, tr)
  else
    (* Collect all access record IDs to delete. *)
    let accessIDs : list string :=
      foldl (fun accessIDs rec => accessIDs ++ [rec_ID rec]) [] existing in
    let patchBody : gmap string Value :=
      {[ "policies" := VMap {[ "delete" := VStrings accessIDs ]} ]} in
    match @client.Update unit (client r) "roles" roleID (Some (VMap patchBody)) None tr with
    | (Err err, tr) =>
        ({| Diagnostics := [AddError "Error Detaching Policies from Role" roleID err];
            State := None |}, tr)
    | (Ok _, tr) => ({| Diagnostics := []; State := None |}, tr)
    end
  end.

(** Read refreshes the policy attachment state from the Directus API. *)
Definition Read (r : RolePoliciesAttachmentResource)
    (state : RolePoliciesAttachmentModel)
    : list Request -> Outcome * list Request :=
  fun tr =>
  let roleID := ValueString (RoleID state) in
  match readRolePolicies r roleID tr with
  | (Err err, tr) =>
      ({| Diagnostics := [AddError "Error Reading Role Policies" roleID err];
          State := None |}, tr)
  | (Ok records, tr) =>
      (* Build the set of attached policy IDs. *)
      let policyElements : list string :=
        foldl (fun policyElements rec => policyElements ++ [rec_Policy rec])
              [] records in
      let policySet := SetValue policyElements in
      ({| Diagnostics := [];
          State := Some {| ID := StringValue roleID;
                           RoleID := RoleID state;
                           PolicyIDs := policySet |} |}, tr)
  end.

(** ImportState imports an existing role's policy attachments; the import
    ID is the role UUID.  The response starts from the null state; "id" and
    "role_id" are set before the read, "policy_ids" after it.  The detail
    of the "Invalid Import ID" diagnostic is carried as its cause. *)
Definition ImportState (r : RolePoliciesAttachmentResource) (roleID : string)
    : list Request -> Outcome * list Request :=
  fun tr =>
  if bool_decide (roleID = "") then
    ({| Diagnostics := [AddError "Invalid Import ID" roleID
                          (Errorf "Expected import ID to be a non-empty role UUID.")];
        State := None |}, tr)
  else
    match readRolePolicies r roleID tr with
    | (Err err, tr) =>
        ({| Diagnostics := [AddError "Error Reading Role Policies During Import"
                              roleID err];
            State := Some {| ID := StringValue roleID;
                             RoleID := StringValue roleID;
                             PolicyIDs := SetNull |} |}, tr)
    | (Ok records, tr) =>
        let policyElements : list string :=
          foldl (fun policyElements rec => policyElements ++ [rec_Policy rec])
                [] records in
        let policySet := SetValue policyElements in
        ({| Diagnostics := [];
            State := Some {| ID := StringValue roleID;
                             RoleID := StringValue roleID;
                             PolicyIDs := policySet |} |}, tr)
    end.

End attachment.

(** ** Helpers not used by the payload builders above *)

(** buildInputMap creates a map for API requests from optional fields: only
    the values that are not nil are copied. *)
Definition buildInputMap (fields : gmap string Value) : gmap string Value :=
  map_fold (fun key value input =>
              match value with
              | VNil => input
              | _ => <[key := value]> input
              end) ∅ fields.

(** ** Diagnostics of the role, policy and collection resources: an error
    with its summary and cause, or a warning with its summary and the count
    it reports. *)
Module diag.

Inductive Diagnostic :=
| Error (summary : string) (cause : client.error)
| Warning (summary : string) (count : nat).

End diag.

(** ** The role resource: internal/provider/role_resource.go, continued *)
Module role.
Import client diag.

(** roleAPIResponse represents the API response for role operations with
    plain Go types; an absent field is the zero value. *)
Record roleAPIResponse := {
  wire_ID : string;
  wire_Name : string;
  wire_Icon : string;
  wire_Description : string;
  wire_Parent : string;
  wire_Children : list string;
  wire_Users : list string
}.

(** The zero value, as a [var result] holds it before any decoding. *)
Definition zero : roleAPIResponse :=
  {| wire_ID := ""; wire_Name := ""; wire_Icon := ""; wire_Description := "";
     wire_Parent := ""; wire_Children := []; wire_Users := [] |}.

(** toModel converts roleAPIResponse to RoleResourceModel. *)
Definition toModel (r : roleAPIResponse) : RoleResourceModel :=
  {| role_ID := StringValue (wire_ID r);
     role_Name := StringValue (wire_Name r);
     role_Icon := stringOrNull (wire_Icon r);
     role_Description := stringOrNull (wire_Description r);
     role_Parent := stringOrNull (wire_Parent r);
     role_Children := stringListOrNull (wire_Children r);
     role_Users := stringListOrNull (wire_Users r) |}.

(** The resource holds the client; [decodeRole] stands for the JSON decoding
    of a response body into [struct { Data roleAPIResponse }]. *)
Record RoleResource := {
  client : Client;
  decodeRole : string -> option roleAPIResponse
}.

Record Outcome := {
  Diagnostics : list Diagnostic;
  State : option RoleResourceModel
}.

Definition Create (r : RoleResource) (data : RoleResourceModel)
    : list Request -> Outcome * list Request :=
  fun tr =>
  (* Build create input *)
  let createInput := buildRoleInput data true in
  (* Create role via API *)
  match client.Create (client r) "roles" (Some (VMap createInput))
          (Some (decodeRole r)) tr with
  | (Err err, tr) =>
      ({| Diagnostics := [Error "Error Creating Role" err]; State := None |}, tr)
  | (Ok result, tr) =>
      (* Convert API response to model *)
      let createdRole := toModel (default zero result) in
      ({| Diagnostics := [];
          State := Some {| role_ID := role_ID createdRole;
                           role_Name := role_Name createdRole;
                           role_Icon := role_Icon createdRole;
                           role_Description := role_Description createdRole;
                           role_Parent := role_Parent createdRole;
                           role_Children := role_Children createdRole;
                           role_Users := role_Users createdRole |} |}, tr)
  end.

Definition Read (r : RoleResource) (data : RoleResourceModel)
    : list Request -> Outcome * list Request :=
  fun tr =>
  (* Get role from API *)
  match client.Get (client r) "roles" (ValueString (role_ID data)) (decodeRole r) tr with
  | (Err err, tr) =>
      ({| Diagnostics := [Error "Error Reading Role" err]; State := None |}, tr)
  | (Ok result, tr) =>
      let readRole := toModel result in
      ({| Diagnostics := [];
          State := Some {| role_ID := role_ID data;
                           role_Name := role_Name readRole;
                           role_Icon := role_Icon readRole;
                           role_Description := role_Description readRole;
                           role_Parent := role_Parent readRole;
                           role_Children := role_Children readRole;
                           role_Users := role_Users readRole |} |}, tr)
  end.

Definition Update (r : RoleResource) (data : RoleResourceModel)
    : list Request -> Outcome * list Request :=
  fun tr =>
  (* Build update input *)
  let updateInput := buildRoleInput data false in
  (* Update role via API *)
  match client.Update (client r) "roles" (ValueString (role_ID data))
          (Some (VMap updateInput)) (Some (decodeRole r)) tr with
  | (Err err, tr) =>
      ({| Diagnostics := [Error "Error Updating Role" err]; State := None |}, tr)
  | (Ok result, tr) =>
      let updatedRole := toModel (default zero result) in
      ({| Diagnostics := [];
          State := Some {| role_ID := role_ID data;
                           role_Name := role_Name updatedRole;
                           role_Icon := role_Icon updatedRole;
                           role_Description := role_Description updatedRole;
                           role_Parent := role_Parent updatedRole;
                           role_Children := role_Children updatedRole;
                           role_Users := role_Users updatedRole |} |}, tr)
  end.

(** Delete warns about a role with children, then deletes it; the state is
    left to the framework. *)
Definition Delete (r : RoleResource) (data : RoleResourceModel)
    : list Request -> Outcome * list Request :=
  fun tr =>
  (* Check if role has children - warn user *)
  let warnings :=
    if negb (IsNull (role_Children data)) && negb (IsUnknown (role_Children data))
    then
      let children :=
        match role_Children data with ListValue elems => elems | _ => [] end in
      if (0 <? length children)%nat
      then [Warning "Deleting Role with Children" (length children)]
      else []
    else [] in
  (* Delete role via API *)
  match client.Delete (client r) "roles" (ValueString (role_ID data)) tr with
  | (Err err, tr) =>
      ({| Diagnostics := warnings ++ [Error "Error Deleting Role" err];
          State := None |}, tr)
  | (Ok _, tr) => ({| Diagnostics := warnings; State := None |}, tr)
  end.

End role.

(** ** The policy resource, continued *)
Module policy.
Import client diag.

(** The zero value of policyAPIResponse. *)
Definition zero : policyAPIResponse :=
  {| api_ID := ""; api_Name := ""; api_Icon := ""; api_Description := "";
     api_IPAccess := []; api_EnforceTFA := false; api_AdminAccess := false;
     api_AppAccess := false |}.

(** The resource holds the client; [decodePolicy] stands for the JSON
    decoding of a response body into [struct { Data policyAPIResponse }]. *)
Record PolicyResource := {
  client : Client;
  decodePolicy : string -> option policyAPIResponse
}.

Record Outcome := {
  Diagnostics : list Diagnostic;
  State : option PolicyResourceModel
}.

(** Create creates a new policy. *)
Definition Create (r : PolicyResource) (plan : PolicyResourceModel)
    : list Request -> Outcome * list Request :=
  fun tr =>
  let reqBody := policyCreateBody plan in
  match client.Create (client r) "policies" (Some (VMap reqBody))
          (Some (decodePolicy r)) tr with
  | (Err err, tr) =>
      ({| Diagnostics := [Error "Error Creating Policy" err]; State := None |}, tr)
  | (Ok response, tr) =>
      ({| Diagnostics := []; State := Some (toModel (default zero response)) |}, tr)
  end.

(** Read reads the policy. *)
Definition Read (r : PolicyResource) (state : PolicyResourceModel)
    : list Request -> Outcome * list Request :=
  fun tr =>
  match client.Get (client r) "policies" (ValueString (pol_ID state))
          (decodePolicy r) tr with
  | (Err err, tr) =>
      ({| Diagnostics := [Error "Error Reading Policy" err]; State := None |}, tr)
  | (Ok response, tr) =>
      ({| Diagnostics := []; State := Some (toModel response) |}, tr)
  end.

(** Update updates the policy. *)
Definition Update (r : PolicyResource) (plan : PolicyResourceModel)
    : list Request -> Outcome * list Request :=
  fun tr =>
  let reqBody := policyUpdateBody plan in
  match client.Update (client r) "policies" (ValueString (pol_ID plan))
          (Some (VMap reqBody)) (Some (decodePolicy r)) tr with
  | (Err err, tr) =>
      ({| Diagnostics := [Error "Error Updating Policy" err]; State := None |}, tr)
  | (Ok response, tr) =>
      ({| Diagnostics := []; State := Some (toModel (default zero response)) |}, tr)
  end.

(** Delete deletes the policy. *)
Definition Delete (r : PolicyResource) (state : PolicyResourceModel)
    : list Request -> Outcome * list Request :=
  fun tr =>
  match client.Delete (client r) "policies" (ValueString (pol_ID state)) tr with
  | (Err err, tr) =>
      ({| Diagnostics := [Error "Error Deleting Policy" err]; State := None |}, tr)
  | (Ok _, tr) => ({| Diagnostics := []; State := None |}, tr)
  end.

End policy.

(** ** The collection resource, continued *)
Module collection.
Import client diag.

Record collectionMetaResponse := {
  meta_Collection : string;
  meta_Icon : string;
  meta_Note : string;
  meta_Hidden : bool;
  meta_Singleton : bool;
  meta_SortField : string;
  meta_ArchiveField : string;
  meta_Color : string
}.

Record collectionSchemaResponse := {
  schema_Name : string;
  schema_Comment : string
}.

(** collectionAPIResponse represents the API response for collection
    operations; a nil pointer is [None]. *)
Record collectionAPIResponse := {
  wire_Collection : string;
  wire_Meta : option collectionMetaResponse;
  wire_Schema : option collectionSchemaResponse
}.

Definition zero : collectionAPIResponse :=
  {| wire_Collection := ""; wire_Meta := None; wire_Schema := None |}.

(** toModel converts collectionAPIResponse to CollectionResourceModel. *)
Definition toModel (c : collectionAPIResponse) : CollectionResourceModel :=
  let collection :=
    {| coll_Collection := StringValue (wire_Collection c);
       coll_Icon := StringNull;
       coll_Note := StringNull;
       coll_Hidden := BoolValue false;
       coll_Singleton := BoolValue false;
       coll_SortField := StringNull;
       coll_Archive := StringNull;
       coll_Color := StringNull |} in
  (* Extract values from meta if present *)
  match wire_Meta c with
  | Some meta =>
      {| coll_Collection := coll_Collection collection;
         coll_Icon := stringOrNull (meta_Icon meta);
         coll_Note := stringOrNull (meta_Note meta);
         coll_Hidden := BoolValue (meta_Hidden meta);
         coll_Singleton := BoolValue (meta_Singleton meta);
         coll_SortField := stringOrNull (meta_SortField meta);
         coll_Archive := stringOrNull (meta_ArchiveField meta);
         coll_Color := stringOrNull (meta_Color meta) |}
  | None => collection
  end.

Record CollectionResource := {
  client : Client;
  decodeCollection : string -> option collectionAPIResponse
}.

Record Outcome := {
  Diagnostics : list Diagnostic;
  State : option CollectionResourceModel
}.

Definition Create (r : CollectionResource) (data : CollectionResourceModel)
    : list Request -> Outcome * list Request :=
  fun tr =>
  let createInput := buildCollectionInput data true in
  match client.Create (client r) "collections" (Some (VMap createInput))
          (Some (decodeCollection r)) tr with
  | (Err err, tr) =>
      ({| Diagnostics := [Error "Error Creating Collection" err]; State := None |}, tr)
  | (Ok result, tr) =>
      let createdCollection := toModel (default zero result) in
      ({| Diagnostics := [];
          State := Some {| coll_Collection := coll_Collection createdCollection;
                           coll_Icon := coll_Icon createdCollection;
                           coll_Note := coll_Note createdCollection;
                           coll_Hidden := coll_Hidden createdCollection;
                           coll_Singleton := coll_Singleton createdCollection;
                           coll_SortField := coll_SortField createdCollection;
                           coll_Archive := coll_Archive createdCollection;
                           coll_Color := coll_Color createdCollection |} |}, tr)
  end.

Definition Read (r : CollectionResource) (data : CollectionResourceModel)
    : list Request -> Outcome * list Request :=
  fun tr =>
  match client.Get (client r) "collections" (ValueString (coll_Collection data))
          (decodeCollection r) tr with
  | (Err err, tr) =>
      ({| Diagnostics := [Error "Error Reading Collection" err]; State := None |}, tr)
  | (Ok result, tr) =>
      let readCollection := toModel result in
      ({| Diagnostics := [];
          State := Some {| coll_Collection := coll_Collection data;
                           coll_Icon := coll_Icon readCollection;
                           coll_Note := coll_Note readCollection;
                           coll_Hidden := coll_Hidden readCollection;
                           coll_Singleton := coll_Singleton readCollection;
                           coll_SortField := coll_SortField readCollection;
                           coll_Archive := coll_Archive readCollection;
                           coll_Color := coll_Color readCollection |} |}, tr)
  end.

Definition Update (r : CollectionResource) (data : CollectionResourceModel)
    : list Request -> Outcome * list Request :=
  fun tr =>
  let updateInput := buildCollectionInput data false in
  match client.Update (client r) "collections" (ValueString (coll_Collection data))
          (Some (VMap updateInput)) (Some (decodeCollection r)) tr with
  | (Err err, tr) =>
      ({| Diagnostics := [Error "Error Updating Collection" err]; State := None |}, tr)
  | (Ok result, tr) =>
      let updatedCollection := toModel (default zero result) in
      ({| Diagnostics := [];
          State := Some {| coll_Collection := coll_Collection data;
                           coll_Icon := coll_Icon updatedCollection;
                           coll_Note := coll_Note updatedCollection;
                           coll_Hidden := coll_Hidden updatedCollection;
                           coll_Singleton := coll_Singleton updatedCollection;
                           coll_SortField := coll_SortField updatedCollection;
                           coll_Archive := coll_Archive updatedCollection;
                           coll_Color := coll_Color updatedCollection |} |}, tr)
  end.

Definition Delete (r : CollectionResource) (data : CollectionResourceModel)
    : list Request -> Outcome * list Request :=
  fun tr =>
  match client.Delete (client r) "collections" (ValueString (coll_Collection data)) tr with
  | (Err err, tr) =>
      ({| Diagnostics := [Error "Error Deleting Collection" err]; State := None |}, tr)
  | (Ok _, tr) => ({| Diagnostics := []; State := None |}, tr)
  end.

End collection.

(** ** The provider: its configuration builds the client *)
Module provider.
Import client diag.

Record DirectusProviderModel := {
  Endpoint : TString;
  Token : TString
}.

(** What Configure leaves in its response: the diagnostics and the client
    handed to the resources, if any. *)
Record ConfigureResponse := {
  Diagnostics : list Diagnostic;
  ResourceData : option Client
}.

Definition Configure (urlParses : string -> bool)
    (httpClient : Z -> list Request -> Request -> string + Response)
    (config : DirectusProviderModel) : ConfigureResponse :=
  (* Initialize Directus client *)
  match NewClient urlParses httpClient
          {| cfg_BaseURL := ValueString (Endpoint config);
             cfg_Token := ValueString (Token config);
             cfg_Timeout := 0 |} with
  | Err err =>
      {| Diagnostics := [Error "Unable to Create Directus Client" err];
         ResourceData := None |}
  | Ok directusClient =>
      (* Make the client available to resources *)
      {| Diagnostics := []; ResourceData := Some directusClient |}
  end.

End provider.

(** * Vocabulary of the statements, and example data *)

Import client attachment.

(** A field is explicitly set when it is neither null nor unknown. *)
Definition isSet {T} `{AttrValue T} (v : T) : bool :=
  negb (IsNull v) && negb (IsUnknown v).

(** A role configuration whose parent has been cleared. *)
Definition roleParentCleared : RoleResourceModel :=
  {| role_ID := StringUnknown;
     role_Name := StringValue "Test Role";
     role_Icon := StringNull;
     role_Description := StringNull;
     role_Parent := StringNull;
     role_Children := ListNull;
     role_Users := ListNull |}.

(** A policy whose ip_access is only commas and blanks. *)
Definition policyBlankIPAccess : PolicyResourceModel :=
  {| pol_ID := StringValue "uuid-1";
     pol_Name := StringValue "Updated";
     pol_Icon := StringNull;
     pol_Description := StringNull;
     pol_IPAccess := StringValue " , ,";
     pol_EnforceTFA := BoolValue false;
     pol_AdminAccess := BoolValue false;
     pol_AppAccess := BoolValue false |}.

(** A policy response with the given ip_access array. *)
Definition policyWithIPAccess (wire : list string) : policyAPIResponse :=
  {| api_ID := "uuid-1";
     api_Name := "Admin Policy";
     api_Icon := "";
     api_Description := "";
     api_IPAccess := wire;
     api_EnforceTFA := false;
     api_AdminAccess := false;
     api_AppAccess := false |}.

(** The request by which [readRolePolicies] fetches the access records. *)
Definition readRequest (c : Client) (roleID : string) : Request :=
  newRequest c MethodGet
    ("/roles/" +:+ roleID +:+ "?fields=id%2Cpolicies.id%2Cpolicies.policy") None.

(** The one request of [client.Update] on a role. *)
Definition patchRequest (c : Client) (roleID : string) (body : gmap string Value)
    : Request :=
  newRequest c MethodPatch ("/roles/" +:+ roleID) (Some (VMap body)).

(** The instructions computed from the desired identifiers [desired] and the
    observed records [existing]. *)
Definition instructionsToCreate (desired : list string)
    (existing : list accessRecordResponse) : list (gmap string Value) :=
  (fun pid => {[ "policy" := VString pid ]})
    <$> filter (fun pid => pid ∉ rec_Policy <$> existing) desired.

Definition recordsToDelete (desired : list string)
    (existing : list accessRecordResponse) : list string :=
  rec_ID <$> filter (fun rec => rec_Policy rec ∉ desired) existing.

(** The nested relational operation built from the two lists. *)
Definition policiesOp (toCreate : list (gmap string Value))
    (toDelete : list string) : gmap string Value :=
  let op : gmap string Value := ∅ in
  let op := if (0 <? length toCreate)%nat
            then <["create" := VMaps toCreate]> op else op in
  if (0 <? length toDelete)%nat then <["delete" := VStrings toDelete]> op else op.

(** The requests Create and Update issue once the read has succeeded. *)
Definition reconcileWrites (c : Client) (roleID : string)
    (toCreate : list (gmap string Value)) (toDelete : list string)
    : list Request :=
  if (0 <? length toCreate)%nat || (0 <? length toDelete)%nat
  then [patchRequest c roleID {[ "policies" := VMap (policiesOp toCreate toDelete) ]}]
  else [].

(** *** What a request carries *)

(** The create instructions of a request: the "create" list nested under
    "policies" in its body, if there is one. *)
Definition createsOf (req : Request) : list (gmap string Value) :=
  match ReqBody req with
  | Some (VMap body) =>
      match body !! "policies" with
      | Some (VMap op) =>
          match op !! "create" with
          | Some (VMaps instructions) => instructions
          | _ => []
          end
      | _ => []
      end
  | _ => []
  end.

(** The delete instructions of a request, likewise. *)
Definition deletesOf (req : Request) : list string :=
  match ReqBody req with
  | Some (VMap body) =>
      match body !! "policies" with
      | Some (VMap op) =>
          match op !! "delete" with
          | Some (VStrings ids) => ids
          | _ => []
          end
      | _ => []
      end
  | _ => []
  end.

(** *** Remote ends for the examples *)

Definition exampleClient : Client :=
  {| BaseURL := "https://directus.example";
     HTTPClient := fun _ _ => inr {| StatusCode := 200%Z; Body := "{}" |};
     Token := "secret" |}.

(** A remote end whose role "role-1" holds the access records [records]. *)
Definition roleWith (records : list accessRecordResponse)
    : RolePoliciesAttachmentResource :=
  {| client := exampleClient;
     decodeRole := fun _ => Some {| rwp_ID := "role-1"; Policies := records |} |}.

(** Role "role-1" with the access records (r1, p1) and (r2, p2). *)
Definition exampleResource : RolePoliciesAttachmentResource :=
  roleWith [ {| rec_ID := "r1"; rec_Policy := "p1" |};
             {| rec_ID := "r2"; rec_Policy := "p2" |} ].

(** A remote end that answers every request with 404. *)
Definition missingRoleResource : RolePoliciesAttachmentResource :=
  {| client :=
       {| BaseURL := "https://directus.example";
          HTTPClient := fun _ _ => inr {| StatusCode := 404%Z; Body := "{}" |};
          Token := "secret" |};
     decodeRole := fun _ => None |}.

Definition examplePlan (desired : list string) : RolePoliciesAttachmentModel :=
  {| ID := StringUnknown;
     RoleID := StringValue "role-1";
     PolicyIDs := SetValue desired |}.


(** The policy a create instruction names. *)
Definition policyOf (instruction : gmap string Value) : option string :=
  match instruction !! "policy" with
  | Some (VString pid) => Some pid
  | _ => None
  end.

(** The state of role "role-1" as a read or an import leaves it. *)
Definition examplePlan_read (observed : list string) : RolePoliciesAttachmentModel :=
  {| ID := StringValue "role-1";
     RoleID := StringValue "role-1";
     PolicyIDs := SetValue observed |}.

(** The result of an operation, by the answer of the remote end. *)
Definition answered {A} (c : Client) (tr : list Request) (req : Request)
    (read : Response → result A) : result A :=
  match HTTPClient c tr req with
  | inl err => Err (ErrTransport err)
  | inr resp =>
      if (400 <=? StatusCode resp)%Z
      then Err (ErrStatus (StatusCode resp) (Body resp))
      else read resp
  end.

(** A role resource, a policy resource and a collection resource on the
    example remote end, whose body "{}" decodes to the zero response. *)
Definition exampleRoles : role.RoleResource :=
  {| role.client := exampleClient; role.decodeRole := fun _ => Some role.zero |}.

Definition examplePolicies : policy.PolicyResource :=
  {| policy.client := exampleClient; policy.decodePolicy := fun _ => Some policy.zero |}.

Definition exampleCollections : collection.CollectionResource :=
  {| collection.client := exampleClient;
     collection.decodeCollection := fun _ => Some collection.zero |}.

Definition roleWithChildren (id : TString) : RoleResourceModel :=
  {| role_ID := id;
     role_Name := StringValue "Parent Role";
     role_Icon := StringNull;
     role_Description := StringNull;
     role_Parent := StringNull;
     role_Children := ListValue ["child-1"; "child-2"];
     role_Users := ListNull |}.

(** A policy plan without an identifier, and collections with and without a
    name. *)
Definition policyBlankIPAccess_noID : PolicyResourceModel :=
  {| pol_ID := StringNull;
     pol_Name := StringValue "Updated";
     pol_Icon := StringNull;
     pol_Description := StringNull;
     pol_IPAccess := StringNull;
     pol_EnforceTFA := BoolValue false;
     pol_AdminAccess := BoolValue false;
     pol_AppAccess := BoolValue false |}.

Definition collectionNamed (name : TString) : CollectionResourceModel :=
  {| coll_Collection := name;
     coll_Icon := StringValue "article";
     coll_Note := StringNull;
     coll_Hidden := BoolNull;
     coll_Singleton := BoolNull;
     coll_SortField := StringNull;
     coll_Archive := StringNull;
     coll_Color := StringNull |}.

Definition collectionUnnamed : CollectionResourceModel := collectionNamed StringNull.

Definition collectionArticles : CollectionResourceModel :=
  collectionNamed (StringValue "articles").


(** * Properties *)

(** ** Path resolution *)

Lemma systemCollections_lookup (collection : string) :
  default false (client.systemCollections !! collection)
  = bool_decide (collection ∈
      [ "collections"; "roles"; "policies"; "users"; "folders"; "files";
        "activity"; "revisions"; "webhooks"; "flows"; "operations";
        "dashboards"; "panels"; "shares"; "settings" ]).
Proof.
  unfold client.systemCollections.
  cbn [list_to_map foldr fst snd uncurry].
  repeat (rewrite lookup_insert; case_decide;
          [ subst; symmetry; apply bool_decide_eq_true;
            repeat (first [ apply list_elem_of_here | apply list_elem_of_further ])
          | ]).
  rewrite lookup_empty. symmetry. apply bool_decide_eq_false.
  rewrite !elem_of_cons, elem_of_nil.
  intros Hin; repeat (destruct Hin as [Hin | Hin]; [congruence |]); exact Hin.
Qed.

(** C6. The path builder is a function of the collection name and the
    identifier alone: a name of the fixed system set resolves to
    "/{collection}/{id}", or "/{collection}" for the empty identifier; any
    other name resolves to "/items/{collection}/{id}", or
    "/items/{collection}".  The rows for "roles" and "articles" are
    instances. *)
Theorem buildCollectionPath_resolves (collection id : string) :
  client.buildCollectionPath collection id =
    (if bool_decide (collection ∈
          [ "collections"; "roles"; "policies"; "users"; "folders"; "files";
            "activity"; "revisions"; "webhooks"; "flows"; "operations";
            "dashboards"; "panels"; "shares"; "settings" ])
     then if bool_decide (id = "") then "/" +:+ collection
          else "/" +:+ collection +:+ "/" +:+ id
     else if bool_decide (id = "") then "/items/" +:+ collection
          else "/items/" +:+ collection +:+ "/" +:+ id)
  ∧ client.buildCollectionPath "roles" "x" = "/roles/x"
  ∧ client.buildCollectionPath "roles" "" = "/roles"
  ∧ client.buildCollectionPath "articles" "1" = "/items/articles/1"
  ∧ client.buildCollectionPath "articles" "" = "/items/articles".
Proof.
  split; [| repeat split; vm_compute; reflexivity ].
  unfold client.buildCollectionPath.
  rewrite systemCollections_lookup.
  destruct (decide (id = "")) as [-> | Hid].
  - rewrite (bool_decide_eq_false_2 ("" ≠ "")) by (intros H; apply H; reflexivity).
    rewrite (bool_decide_eq_true_2 ("" = "")) by reflexivity.
    reflexivity.
  - rewrite (bool_decide_eq_true_2 (id ≠ "")) by assumption.
    rewrite (bool_decide_eq_false_2 (id = "")) by assumption.
    reflexivity.
Qed.

(** ** Payload mappers *)

(** C5, as stated, fails for create payloads: with a null parent the create
    mapping leaves the "parent" key out instead of sending null. *)
Lemma buildRoleInput_create_drops_null_parent :
  role_Parent roleParentCleared = StringNull
  ∧ buildRoleInput roleParentCleared true !! "parent" = None
  ∧ buildRoleInput roleParentCleared true !! "parent" ≠ Some VNil.
Proof.
  split; [reflexivity |].
  assert (buildRoleInput roleParentCleared true !! "parent" = None) as E
    by (vm_compute; reflexivity).
  split; [exact E | rewrite E; discriminate].
Qed.

(** C5, amended.  In an update payload the parent is nullable: null is sent
    as an explicit null, unknown leaves the key out, a value is sent as that
    string.  In a create payload the parent is sent only when it is a
    value.  The icon and the description are sent only when they are
    values; so is the name on update, while on create the name is always
    sent. *)
Theorem buildRoleInput_fields (data : RoleResourceModel) (isCreate : bool) :
  buildRoleInput data isCreate !! "parent" =
    match role_Parent data with
    | StringValue s => Some (VString s)
    | StringNull => if isCreate then None else Some VNil
    | StringUnknown => None
    end
  ∧ buildRoleInput data isCreate !! "icon" =
      match role_Icon data with
      | StringValue s => Some (VString s)
      | _ => None
      end
  ∧ buildRoleInput data isCreate !! "description" =
      match role_Description data with
      | StringValue s => Some (VString s)
      | _ => None
      end
  ∧ buildRoleInput data isCreate !! "name" =
      if isCreate then Some (VString (ValueString (role_Name data)))
      else match role_Name data with
           | StringValue s => Some (VString s)
           | _ => None
           end.
Proof.
  destruct data as [i n ic d p ch u]; cbn [role_Parent role_Icon role_Description role_Name].
  destruct isCreate, n, ic, d, p; repeat split; vm_compute; reflexivity.
Qed.

(** What the field setters leave at a key, and which keys they can add. *)
Lemma setStringField_lookup_eq (m : gmap string Value) (k : string) (v : TString) :
  setStringField m k v !! k
  = if isSet v then Some (VString (ValueString v)) else m !! k.
Proof.
  unfold setStringField, isSet.
  destruct (negb (IsNull v) && negb (IsUnknown v)); [| reflexivity].
  apply lookup_insert_eq.
Qed.

Lemma setStringField_lookup_ne (m : gmap string Value) (k k' : string) (v : TString) :
  k ≠ k' → setStringField m k v !! k' = m !! k'.
Proof.
  intros Hk. unfold setStringField.
  destruct (negb (IsNull v) && negb (IsUnknown v)); [| reflexivity].
  apply lookup_insert_ne, Hk.
Qed.

Lemma setBoolField_lookup_eq (m : gmap string Value) (k : string) (v : TBool) :
  setBoolField m k v !! k
  = if isSet v then Some (VBool (ValueBool v)) else m !! k.
Proof.
  unfold setBoolField, isSet.
  destruct (negb (IsNull v) && negb (IsUnknown v)); [| reflexivity].
  apply lookup_insert_eq.
Qed.

Lemma setBoolField_lookup_ne (m : gmap string Value) (k k' : string) (v : TBool) :
  k ≠ k' → setBoolField m k v !! k' = m !! k'.
Proof.
  intros Hk. unfold setBoolField.
  destruct (negb (IsNull v) && negb (IsUnknown v)); [| reflexivity].
  apply lookup_insert_ne, Hk.
Qed.

(** Rewrite a lookup through a chain of field setters with literal keys. *)
Ltac lookup_fields :=
  repeat first
    [ rewrite setStringField_lookup_eq
    | rewrite setBoolField_lookup_eq
    | rewrite setStringField_lookup_ne by discriminate
    | rewrite setBoolField_lookup_ne by discriminate
    | rewrite lookup_insert_eq
    | rewrite lookup_insert_ne by discriminate
    | rewrite lookup_singleton_eq
    | rewrite lookup_singleton_ne by discriminate
    | rewrite lookup_empty ].

Lemma setStringField_dom (m : gmap string Value) (k : string) (v : TString) :
  dom (setStringField m k v) ⊆ {[ k ]} ∪ dom m.
Proof.
  unfold setStringField. destruct (negb (IsNull v) && negb (IsUnknown v)).
  - rewrite dom_insert. reflexivity.
  - set_solver.
Qed.

Lemma setBoolField_dom (m : gmap string Value) (k : string) (v : TBool) :
  dom (setBoolField m k v) ⊆ {[ k ]} ∪ dom m.
Proof.
  unfold setBoolField. destruct (negb (IsNull v) && negb (IsUnknown v)).
  - rewrite dom_insert. reflexivity.
  - set_solver.
Qed.

(** The create payload of a collection without and with an icon. *)
Example collection_create_bare :
  buildCollectionInput
    {| coll_Collection := StringValue "articles"; coll_Icon := StringNull;
       coll_Note := StringNull; coll_Hidden := BoolNull; coll_Singleton := BoolNull;
       coll_SortField := StringNull; coll_Archive := StringNull;
       coll_Color := StringNull |} true
  = <[ "schema" := VMap ∅ ]> {[ "collection" := VString "articles" ]}.
Proof. vm_compute. reflexivity. Qed.

Example collection_create_icon :
  buildCollectionInput
    {| coll_Collection := StringValue "articles"; coll_Icon := StringValue "article";
       coll_Note := StringNull; coll_Hidden := BoolNull; coll_Singleton := BoolNull;
       coll_SortField := StringNull; coll_Archive := StringNull;
       coll_Color := StringNull |} true
  = <[ "meta" := VMap {[ "icon" := VString "article" ]} ]>
      (<[ "schema" := VMap ∅ ]> {[ "collection" := VString "articles" ]}).
Proof. vm_compute. reflexivity. Qed.

(** C8. A create payload always carries the collection name and an empty
    "schema" object; an update payload carries neither key.  Both carry a
    "meta" object exactly when one of the seven meta fields is set, and
    that object holds the set fields and nothing else. *)
Theorem buildCollectionInput_payload (data : CollectionResourceModel) :
  buildCollectionInput data true !! "collection"
    = Some (VString (ValueString (coll_Collection data)))
  ∧ buildCollectionInput data true !! "schema" = Some (VMap ∅)
  ∧ buildCollectionInput data false !! "collection" = None
  ∧ buildCollectionInput data false !! "schema" = None
  ∧ ∃ meta : gmap string Value,
      meta !! "icon" = (if isSet (coll_Icon data)
                        then Some (VString (ValueString (coll_Icon data))) else None)
      ∧ meta !! "note" = (if isSet (coll_Note data)
                          then Some (VString (ValueString (coll_Note data))) else None)
      ∧ meta !! "hidden" = (if isSet (coll_Hidden data)
                            then Some (VBool (ValueBool (coll_Hidden data))) else None)
      ∧ meta !! "singleton" = (if isSet (coll_Singleton data)
                               then Some (VBool (ValueBool (coll_Singleton data))) else None)
      ∧ meta !! "sort_field" = (if isSet (coll_SortField data)
                                then Some (VString (ValueString (coll_SortField data))) else None)
      ∧ meta !! "archive_field" = (if isSet (coll_Archive data)
                                   then Some (VString (ValueString (coll_Archive data))) else None)
      ∧ meta !! "color" = (if isSet (coll_Color data)
                           then Some (VString (ValueString (coll_Color data))) else None)
      ∧ dom meta ⊆ list_to_set [ "icon"; "note"; "hidden"; "singleton";
                                 "sort_field"; "archive_field"; "color" ]
      ∧ buildCollectionInput data true !! "meta" =
          (if isSet (coll_Icon data) || isSet (coll_Note data)
              || isSet (coll_Hidden data) || isSet (coll_Singleton data)
              || isSet (coll_SortField data) || isSet (coll_Archive data)
              || isSet (coll_Color data)
           then Some (VMap meta) else None)
      ∧ buildCollectionInput data false !! "meta"
          = buildCollectionInput data true !! "meta".
Proof.
  unfold buildCollectionInput; cbv zeta.
  set (meta := setStringField _ "color" (coll_Color data)).
  assert (∀ (input : gmap string Value) (k : string),
            k ≠ "meta" →
            (if (0 <? size meta)%nat then <["meta" := VMap meta]> input else input) !! k
            = input !! k) as Hother.
  { intros input k Hk. destruct (0 <? size meta)%nat; [| reflexivity].
    apply lookup_insert_ne. congruence. }
  repeat (split; [rewrite Hother by discriminate; reflexivity |]).
  exists meta.
  repeat (split; [unfold meta; lookup_fields;
                  repeat match goal with |- context [isSet ?v] => destruct (isSet v) end;
                  reflexivity |]).
  split.
  { unfold meta. repeat (first [ etrans; [apply setStringField_dom |]
                               | etrans; [apply setBoolField_dom |] ];
                         apply union_least; [set_solver |]).
    set_solver. }
  assert ((0 <? size meta)%nat
          = (isSet (coll_Icon data) || isSet (coll_Note data)
             || isSet (coll_Hidden data) || isSet (coll_Singleton data)
             || isSet (coll_SortField data) || isSet (coll_Archive data)
             || isSet (coll_Color data))) as Hsize.
  { unfold meta, setStringField, setBoolField, isSet.
    generalize (ValueString (coll_Icon data)) (ValueString (coll_Note data))
               (ValueBool (coll_Hidden data)) (ValueBool (coll_Singleton data))
               (ValueString (coll_SortField data)) (ValueString (coll_Archive data))
               (ValueString (coll_Color data)).
    intros v1 v2 v3 v4 v5 v6 v7.
    destruct (negb (IsNull (coll_Icon data)) && negb (IsUnknown (coll_Icon data))),
             (negb (IsNull (coll_Note data)) && negb (IsUnknown (coll_Note data))),
             (negb (IsNull (coll_Hidden data)) && negb (IsUnknown (coll_Hidden data))),
             (negb (IsNull (coll_Singleton data)) && negb (IsUnknown (coll_Singleton data))),
             (negb (IsNull (coll_SortField data)) && negb (IsUnknown (coll_SortField data))),
             (negb (IsNull (coll_Archive data)) && negb (IsUnknown (coll_Archive data))),
             (negb (IsNull (coll_Color data)) && negb (IsUnknown (coll_Color data)));
      vm_compute; reflexivity. }
  rewrite <- Hsize.
  destruct (0 <? size meta)%nat.
  - rewrite !lookup_insert_eq. split; reflexivity.
  - split; reflexivity.
Qed.

(** ** White-space trimming: the scan of [trimLeft] runs to its end *)

Lemma stripPrefix_length (p l rest : list ascii) :
  Strings.stripPrefix p l = Some rest → length l = length p + length rest.
Proof.
  revert l. induction p as [| a p IH]; intros l H.
  - cbn in H. injection H as ->. reflexivity.
  - destruct l as [| b l]; [discriminate |]. cbn in H.
    destruct (Ascii.eqb a b); [| discriminate].
    cbn [length]. rewrite (IH _ H). reflexivity.
Qed.

Lemma dropRune_shorter (runes : list (list ascii)) (l rest : list ascii) :
  Forall (fun r => r ≠ []) runes →
  Strings.dropRune runes l = Some rest → (length rest < length l)%nat.
Proof.
  intros Hrunes. induction Hrunes as [| r runes Hr _ IH]; [discriminate |].
  cbn [Strings.dropRune]. destruct (Strings.stripPrefix r l) as [rest' |] eqn:E.
  - intros [= ->]. apply stripPrefix_length in E.
    destruct r; [congruence |]. cbn [length] in E. lia.
  - exact IH.
Qed.

Lemma dropRune_nil (runes : list (list ascii)) :
  Forall (fun r => r ≠ []) runes → Strings.dropRune runes [] = None.
Proof.
  intros Hrunes. induction Hrunes as [| r runes Hr _ IH]; [reflexivity |].
  cbn [Strings.dropRune]. destruct r; [congruence |]. exact IH.
Qed.

Lemma trimLoop_done (runes : list (list ascii)) (n : nat) (l : list ascii) :
  Forall (fun r => r ≠ []) runes → (length l ≤ n)%nat →
  Strings.dropRune runes (Strings.trimLoop runes n l) = None.
Proof.
  intros Hrunes. revert l. induction n as [| n IH]; intros l Hn.
  - destruct l; [| cbn in Hn; lia]. apply dropRune_nil, Hrunes.
  - cbn [Strings.trimLoop].
    destruct (Strings.dropRune runes l) as [rest |] eqn:E; [| exact E].
    apply IH. apply (dropRune_shorter _ _ _ Hrunes) in E. lia.
Qed.

(** What [trimLeft] returns starts with no space rune: the fuel of the
    scan, the length of the input, is enough. *)
Lemma trimLeft_done (l : list ascii) :
  Strings.dropRune Strings.spaceRunes (Strings.trimLeft Strings.spaceRunes l) = None.
Proof.
  apply trimLoop_done; [| reflexivity].
  unfold Strings.spaceRunes. repeat constructor; discriminate.
Qed.

Lemma trimRight_done (l : list ascii) :
  Strings.dropRune (map (@rev ascii) Strings.spaceRunes)
    (Strings.trimLeft (map (@rev ascii) Strings.spaceRunes) l) = None.
Proof.
  apply trimLoop_done; [| reflexivity].
  unfold Strings.spaceRunes. cbn. repeat constructor; discriminate.
Qed.

(** ** The IP allow-list of a policy *)

(** The loop of [setIPAccessField] keeps the trimmed segments that are not
    empty, in order. *)
Lemma trimmed_segments (parts acc : list string) :
  foldl (fun trimmed p =>
           let s := Strings.TrimSpace p in
           if bool_decide (s ≠ "") then trimmed ++ [s] else trimmed)
        acc parts
  = acc ++ filter (fun s => s ≠ "") (Strings.TrimSpace <$> parts).
Proof.
  revert acc. induction parts as [| p parts IH]; intros acc.
  - cbn. rewrite app_nil_r. reflexivity.
  - cbn [foldl fmap list_fmap]. rewrite IH.
    destruct (decide (Strings.TrimSpace p ≠ "")) as [Hp | Hp].
    + rewrite bool_decide_eq_true_2 by exact Hp.
      rewrite filter_cons_True by exact Hp.
      rewrite <- app_assoc. reflexivity.
    + rewrite bool_decide_eq_false_2 by exact Hp.
      rewrite filter_cons_False by exact Hp. reflexivity.
Qed.

(** [setIPAccessField] either leaves the payload alone or stores a
    non-empty array. *)
Lemma setIPAccessField_cases (input : gmap string Value) (v : TString) :
  setIPAccessField input v = input
  ∨ ∃ l, l ≠ [] ∧ setIPAccessField input v = <["ip_access" := VStrings l]> input.
Proof.
  unfold setIPAccessField.
  destruct (IsNull v || IsUnknown v); [left; reflexivity |].
  destruct (bool_decide (ValueString v = "")); [left; reflexivity |].
  cbv zeta. rewrite trimmed_segments, app_nil_l.
  destruct (filter _ _) as [| s l] eqn:E; [left; reflexivity |].
  right. exists (s :: l). split; [discriminate | reflexivity].
Qed.

Lemma setIPAccessField_blank_id (input : gmap string Value) (csv : string) :
  Forall (fun p => Strings.TrimSpace p = "") (Strings.Split csv ",") →
  setIPAccessField input (StringValue csv) = input.
Proof.
  intros Hblank. unfold setIPAccessField. cbn [IsNull IsUnknown TString_AttrValue orb ValueString].
  destruct (bool_decide (csv = "")); [reflexivity |].
  cbv zeta. rewrite trimmed_segments, app_nil_l.
  replace (filter _ _) with (@nil string); [reflexivity |].
  symmetry. induction Hblank as [| p parts Hp _ IH]; [reflexivity |].
  cbn [fmap list_fmap]. rewrite filter_cons_False; [exact IH |].
  intros Hne. apply Hne. exact Hp.
Qed.

(** C10. When every comma-separated segment of a known ip_access string
    trims to the empty string (the empty string included), the field setter
    leaves the payload as it is, so neither the create nor the update
    payload of the policy has an "ip_access" key.  No configuration makes
    either payload carry an empty array. *)
Theorem blank_ip_access_is_not_sent (plan : PolicyResourceModel) (csv : string)
    (input : gmap string Value)
    (Hplan : pol_IPAccess plan = StringValue csv)
    (Hblank : Forall (fun p => Strings.TrimSpace p = "") (Strings.Split csv ",")) :
  setIPAccessField input (StringValue csv) = input
  ∧ policyCreateBody plan !! "ip_access" = None
  ∧ policyUpdateBody plan !! "ip_access" = None
  ∧ ∀ other : PolicyResourceModel,
      policyCreateBody other !! "ip_access" ≠ Some (VStrings [])
      ∧ policyUpdateBody other !! "ip_access" ≠ Some (VStrings []).
Proof.
  split; [apply setIPAccessField_blank_id, Hblank |].
  split; [| split].
  - unfold policyCreateBody; cbv zeta. rewrite Hplan.
    rewrite setIPAccessField_blank_id by exact Hblank.
    lookup_fields. reflexivity.
  - unfold policyUpdateBody; cbv zeta. rewrite Hplan.
    rewrite setIPAccessField_blank_id by exact Hblank.
    lookup_fields. reflexivity.
  - intros other. unfold policyCreateBody, policyUpdateBody; cbv zeta.
    split.
    + lookup_fields.
      match goal with |- context [setIPAccessField ?m ?v] =>
        destruct (setIPAccessField_cases m v) as [-> | (l & Hl & ->)] end.
      * lookup_fields. discriminate.
      * lookup_fields. intros [= E]. apply Hl. exact E.
    + lookup_fields.
      match goal with |- context [setIPAccessField ?m ?v] =>
        destruct (setIPAccessField_cases m v) as [-> | (l & Hl & ->)] end.
      * lookup_fields. discriminate.
      * lookup_fields. intros [= E]. apply Hl. exact E.
Qed.

Lemma blank_ip_access_is_not_sent_witness :
  policyUpdateBody policyBlankIPAccess !! "ip_access" = None.
Proof.
  refine (proj1 (proj2 (proj2
    (blank_ip_access_is_not_sent policyBlankIPAccess " , ," ∅ _ _)))).
  - reflexivity.
  - vm_compute. repeat constructor.
Defined.

(** Splitting on commas undoes joining with commas, for fields that hold
    no comma. *)
Lemma Split_no_comma (s : string) :
  Strings.Contains s "," = false → Strings.Split s "," = [s].
Proof.
  induction s as [| c s IH]; [reflexivity |].
  cbn [Strings.Contains Strings.Split]. intros H.
  apply orb_false_iff in H as [Hc Hs].
  rewrite Hc, (IH Hs). reflexivity.
Qed.

Lemma Split_field_comma (s rest : string) :
  Strings.Contains s "," = false →
  Strings.Split (s +:+ String "," rest) "," = s :: Strings.Split rest ",".
Proof.
  induction s as [| c s IH]; [reflexivity |].
  cbn [Strings.Contains]. intros H.
  apply orb_false_iff in H as [Hc Hs].
  change (String c s +:+ String "," rest) with (String c (s +:+ String "," rest)).
  cbn [Strings.Split]. rewrite Hc, (IH Hs). reflexivity.
Qed.

Lemma Split_Join (l : list string) :
  l ≠ [] →
  Forall (fun s => Strings.Contains s "," = false) l →
  Strings.Split (Strings.Join l ",") "," = l.
Proof.
  intros Hne Hl. induction Hl as [| x l Hx Hl IH]; [congruence |].
  destruct l as [| y l].
  - apply Split_no_comma, Hx.
  - change (Strings.Join (x :: y :: l) ",")
      with (x +:+ String "," (Strings.Join (y :: l) ",")).
    rewrite Split_field_comma by exact Hx.
    rewrite IH by discriminate. reflexivity.
Qed.

Lemma Join_not_empty (x : string) (l : list string) :
  x ≠ "" → Strings.Join (x :: l) "," ≠ "".
Proof.
  intros Hx. destruct x as [| c x]; [congruence |].
  destruct l; cbn; discriminate.
Qed.

(** C7, as stated, fails at the empty array: it maps to a null ip_access,
    and a null ip_access puts no "ip_access" key in the payload. *)
Lemma ip_access_round_trip_empty_array :
  pol_IPAccess (toModel (policyWithIPAccess [])) = StringNull
  ∧ setIPAccessField ∅ (pol_IPAccess (toModel (policyWithIPAccess [])))
      !! "ip_access" = None
  ∧ setIPAccessField ∅ (pol_IPAccess (toModel (policyWithIPAccess [])))
      !! "ip_access" ≠ Some (VStrings []).
Proof.
  split; [reflexivity |].
  assert (setIPAccessField ∅ (pol_IPAccess (toModel (policyWithIPAccess [])))
            !! "ip_access" = None) as E by (vm_compute; reflexivity).
  split; [exact E | rewrite E; discriminate].
Qed.

(** C7, amended.  The string "10.0.0.0/8, 192.168.1.0/24" is sent as the
    array of its two trimmed segments, and that array is read back as
    "10.0.0.0/8,192.168.1.0/24".  Reading an array and sending the result
    gives the array back whenever the array is not empty and its elements
    are trimmed, not empty and free of commas. *)
Theorem ip_access_round_trip (p : policyAPIResponse) (input : gmap string Value)
    (Hne : api_IPAccess p ≠ [])
    (Hok : Forall (fun s => Strings.TrimSpace s = s ∧ s ≠ ""
                            ∧ Strings.Contains s "," = false)
                  (api_IPAccess p)) :
  pol_IPAccess (toModel p) = StringValue (Strings.Join (api_IPAccess p) ",")
  ∧ setIPAccessField input (pol_IPAccess (toModel p)) !! "ip_access"
    = Some (VStrings (api_IPAccess p))
  ∧ setIPAccessField input (StringValue "10.0.0.0/8, 192.168.1.0/24") !! "ip_access"
    = Some (VStrings ["10.0.0.0/8"; "192.168.1.0/24"])
  ∧ pol_IPAccess (toModel (policyWithIPAccess ["10.0.0.0/8"; "192.168.1.0/24"]))
    = StringValue "10.0.0.0/8,192.168.1.0/24".
Proof.
  assert (pol_IPAccess (toModel p)
          = StringValue (Strings.Join (api_IPAccess p) ",")) as Hmodel.
  { unfold toModel; cbn [pol_IPAccess].
    destruct (api_IPAccess p); [congruence | reflexivity]. }
  split; [exact Hmodel |].
  split; [| split; [| reflexivity]].
  - rewrite Hmodel. unfold setIPAccessField.
    cbn [IsNull IsUnknown TString_AttrValue orb ValueString].
    destruct (api_IPAccess p) as [| x l] eqn:Ewire; [congruence |].
    rewrite bool_decide_eq_false_2
      by (apply Join_not_empty; inversion Hok as [| ? ? (_ & Hx & _) _]; exact Hx).
    cbv zeta. rewrite trimmed_segments, app_nil_l.
    rewrite Split_Join;
      [| discriminate | eapply Forall_impl; [exact Hok | intros s (_ & _ & Hs); exact Hs] ].
    replace (filter _ _) with (x :: l).
    + cbn [length Nat.ltb Nat.leb]. apply lookup_insert_eq.
    + clear Ewire Hne Hmodel. generalize dependent (x :: l). clear x l.
      intros wire Hok. induction Hok as [| s wire (Hs & Hn & _) _ IH]; [reflexivity |].
      cbn [fmap list_fmap]. rewrite Hs.
      rewrite filter_cons_True by exact Hn. f_equal. exact IH.
  - unfold setIPAccessField.
    cbn [IsNull IsUnknown TString_AttrValue orb ValueString].
    rewrite bool_decide_eq_false_2 by discriminate.
    cbv zeta. rewrite trimmed_segments, app_nil_l.
    replace (filter _ _) with ["10.0.0.0/8"; "192.168.1.0/24"]
      by (vm_compute; reflexivity).
    apply lookup_insert_eq.
Qed.

Lemma ip_access_round_trip_witness :
  setIPAccessField ∅
    (pol_IPAccess (toModel (policyWithIPAccess ["10.0.0.0/8"; "192.168.1.0/24"])))
    !! "ip_access"
  = Some (VStrings ["10.0.0.0/8"; "192.168.1.0/24"]).
Proof.
  refine (proj1 (proj2
    (ip_access_round_trip (policyWithIPAccess ["10.0.0.0/8"; "192.168.1.0/24"]) ∅ _ _))).
  - discriminate.
  - repeat constructor; try discriminate; vm_compute; reflexivity.
Defined.

(** ** The client: parameter checks come before any request *)

(** C9. On an empty collection name, an empty identifier (Get,
    GetWithParams, Update, Delete) or a nil payload (Create, Update), every
    CRUD operation of the client returns the error of its first failing
    parameter check and leaves the request log as it was: no HTTP request
    is issued. *)
Theorem validation_precedes_requests {A : Type} (c : client.Client)
    (collection id : string) (params : gmap string string)
    (data : option Value) (decode : string → option A)
    (result : option (string → option A)) (tr : list client.Request) :
  client.Get c "" id decode tr
    = (client.Err (client.Errorf "collection is required"), tr)
  ∧ client.Get c collection "" decode tr
    = (client.Err (client.Errorf
         (if bool_decide (collection = "") then "collection is required"
          else "id is required")), tr)
  ∧ client.GetWithParams c "" id params decode tr
    = (client.Err (client.Errorf "collection is required"), tr)
  ∧ client.GetWithParams c collection "" params decode tr
    = (client.Err (client.Errorf
         (if bool_decide (collection = "") then "collection is required"
          else "id is required")), tr)
  ∧ client.List c "" decode tr
    = (client.Err (client.Errorf "collection is required"), tr)
  ∧ client.Create c "" data result tr
    = (client.Err (client.Errorf "collection is required"), tr)
  ∧ client.Create c collection None result tr
    = (client.Err (client.Errorf
         (if bool_decide (collection = "") then "collection is required"
          else "data is required")), tr)
  ∧ client.Update c "" id data result tr
    = (client.Err (client.Errorf "collection is required"), tr)
  ∧ client.Update c collection "" data result tr
    = (client.Err (client.Errorf
         (if bool_decide (collection = "") then "collection is required"
          else "id is required")), tr)
  ∧ client.Update c collection id None result tr
    = (client.Err (client.Errorf
         (if bool_decide (collection = "") then "collection is required"
          else if bool_decide (id = "") then "id is required"
          else "data is required")), tr)
  ∧ client.Delete c "" id tr
    = (client.Err (client.Errorf "collection is required"), tr)
  ∧ client.Delete c collection "" tr
    = (client.Err (client.Errorf
         (if bool_decide (collection = "") then "collection is required"
          else "id is required")), tr).
Proof.
  unfold client.Get, client.GetWithParams, client.List, client.Create,
    client.Update, client.Delete, client.fail.
  repeat split;
    repeat (case_bool_decide; try reflexivity; try congruence).
Qed.

(** ** The role-policies reconciler *)

Section Reconciler.

Lemma buildCollectionPath_role (roleID : string) :
  roleID ≠ "" → buildCollectionPath "roles" roleID = "/roles/" +:+ roleID.
Proof.
  intros Hid. unfold buildCollectionPath.
  rewrite systemCollections_lookup.
  rewrite bool_decide_eq_true_2
    by (repeat (first [ apply list_elem_of_here | apply list_elem_of_further ])).
  rewrite bool_decide_eq_true_2 by exact Hid. reflexivity.
Qed.

(** [readRolePolicies] issues nothing for an empty role identifier and one
    GET otherwise. *)
Lemma readRolePolicies_run (r : RolePoliciesAttachmentResource)
    (roleID : string) (tr : list Request) :
  (roleID = "" ∧
   readRolePolicies r roleID tr = (Err (Errorf "id is required"), tr))
  ∨ (roleID ≠ "" ∧
     snd (readRolePolicies r roleID tr) = tr ++ [readRequest (client r) roleID]).
Proof.
  unfold readRolePolicies, GetWithParams.
  rewrite (bool_decide_eq_false_2 ("roles" = "")) by discriminate.
  case_bool_decide as Hid; [left; split; [exact Hid | reflexivity] |].
  right. split; [exact Hid |].
  rewrite buildCollectionPath_role by exact Hid.
  rewrite map_size_singleton. cbn [Nat.ltb Nat.leb].
  replace (url.Encode _) with "fields=id%2Cpolicies.id%2Cpolicies.policy"
    by (vm_compute; reflexivity).
  unfold bind, doRequest, decodeInto, ret, fail.
  fold (readRequest (client r) roleID).
  replace (("/roles/" +:+ roleID) +:+ "?" +:+ "fields=id%2Cpolicies.id%2Cpolicies.policy")
    with ("/roles/" +:+ roleID +:+ "?fields=id%2Cpolicies.id%2Cpolicies.policy")
    by (cbn; reflexivity).
  fold (readRequest (client r) roleID).
  destruct (HTTPClient _ _ _) as [e | resp]; [reflexivity |].
  destruct (400 <=? StatusCode resp)%Z; [reflexivity |].
  destruct (decodeRole r (Body resp)); reflexivity.
Qed.

Lemma readRolePolicies_ok (r : RolePoliciesAttachmentResource)
    (roleID : string) (tr tr1 : list Request) (O : list accessRecordResponse) :
  readRolePolicies r roleID tr = (Ok O, tr1) →
  roleID ≠ "" ∧ tr1 = tr ++ [readRequest (client r) roleID].
Proof.
  intros Hread.
  destruct (readRolePolicies_run r roleID tr) as [(_ & E) | (Hid & E)].
  - rewrite Hread in E. discriminate.
  - rewrite Hread in E. split; [exact Hid | exact E].
Qed.

(** [client.Update] on a role with a payload: one PATCH, whatever the
    remote end answers. *)
Lemma Update_role_run (c : Client) (roleID : string) (body : gmap string Value)
    (tr : list Request) :
  roleID ≠ "" →
  snd (@client.Update unit c "roles" roleID (Some (VMap body)) None tr)
  = tr ++ [patchRequest c roleID body].
Proof.
  intros Hid. unfold client.Update.
  rewrite (bool_decide_eq_false_2 ("roles" = "")) by discriminate.
  rewrite (bool_decide_eq_false_2 (roleID = "")) by exact Hid.
  rewrite bool_decide_eq_false_2 by discriminate.
  rewrite buildCollectionPath_role by exact Hid.
  unfold bind, doRequest, ret. fold (patchRequest c roleID body).
  destruct (HTTPClient _ _ _) as [e | resp]; [reflexivity |].
  destruct (400 <=? StatusCode resp)%Z; reflexivity.
Qed.

(** *** The four loops of the diff *)

Lemma existingMap_lookup (existing : list accessRecordResponse)
    (m : gmap string string) (pid : string) :
  foldl (fun m rec => <[rec_Policy rec := rec_ID rec]> m) m existing !! pid = None
  ↔ m !! pid = None ∧ pid ∉ rec_Policy <$> existing.
Proof.
  revert m. induction existing as [| rec existing IH]; intros m.
  - cbn. rewrite elem_of_nil. tauto.
  - cbn [foldl fmap list_fmap]. rewrite IH, not_elem_of_cons.
    rewrite lookup_insert_None. intuition congruence.
Qed.

Lemma toCreate_loop (m : gmap string string) (desired : list string)
    (acc : list (gmap string Value)) :
  foldl (fun toCreate pid =>
           match m !! pid with
           | None => toCreate ++ [{[ "policy" := VString pid ]}]
           | Some _ => toCreate
           end) acc desired
  = acc ++ ((fun pid => {[ "policy" := VString pid ]})
              <$> filter (fun pid => m !! pid = None) desired).
Proof.
  revert acc. induction desired as [| pid desired IH]; intros acc.
  - cbn. rewrite app_nil_r. reflexivity.
  - cbn [foldl]. rewrite IH. destruct (m !! pid) eqn:E.
    + rewrite filter_cons_False by (rewrite E; discriminate). reflexivity.
    + rewrite filter_cons_True by exact E.
      rewrite fmap_cons, <- app_assoc. reflexivity.
Qed.

Lemma desiredSet_lookup (desired : list string) (m : gmap string bool)
    (pid : string) :
  default false (foldl (fun m pid => <[pid := true]> m) m desired !! pid)
  = bool_decide (pid ∈ desired) || default false (m !! pid).
Proof.
  revert m. induction desired as [| p desired IH]; intros m.
  - cbn [foldl]. rewrite bool_decide_eq_false_2 by apply not_elem_of_nil.
    reflexivity.
  - cbn [foldl]. rewrite IH. rewrite lookup_insert.
    destruct (decide (p = pid)) as [-> | Hp].
    + rewrite (bool_decide_eq_true_2 (pid ∈ pid :: desired)) by apply list_elem_of_here.
      cbn. apply orb_true_r.
    + destruct (decide (pid ∈ desired)) as [Hin | Hin].
      * rewrite !bool_decide_eq_true_2; [reflexivity | | exact Hin].
        apply list_elem_of_further, Hin.
      * rewrite !bool_decide_eq_false_2; [reflexivity | | exact Hin].
        rewrite not_elem_of_cons. split; [congruence | exact Hin].
Qed.

Lemma toDelete_loop (desiredSet : gmap string bool)
    (existing : list accessRecordResponse) (acc : list string) :
  foldl (fun toDelete rec =>
           if negb (default false (desiredSet !! rec_Policy rec))
           then toDelete ++ [rec_ID rec] else toDelete) acc existing
  = acc ++ (rec_ID <$> filter
              (fun rec => default false (desiredSet !! rec_Policy rec) = false)
              existing).
Proof.
  revert acc. induction existing as [| rec existing IH]; intros acc.
  - cbn. rewrite app_nil_r. reflexivity.
  - cbn [foldl]. rewrite IH.
    destruct (default false (desiredSet !! rec_Policy rec)) eqn:E; cbn [negb].
    + rewrite filter_cons_False by (rewrite E; discriminate). reflexivity.
    + rewrite filter_cons_True by exact E.
      rewrite fmap_cons, <- app_assoc. reflexivity.
Qed.

Lemma accessIDs_loop (existing : list accessRecordResponse) (acc : list string) :
  foldl (fun accessIDs rec => accessIDs ++ [rec_ID rec]) acc existing
  = acc ++ (rec_ID <$> existing).
Proof.
  revert acc. induction existing as [| rec existing IH]; intros acc.
  - cbn. rewrite app_nil_r. reflexivity.
  - cbn [foldl]. rewrite IH, fmap_cons, <- app_assoc. reflexivity.
Qed.

(** Rewrite the loops of Create and Update into the lists above, once the
    plan and the read are known. *)
Ltac diff_loops Hset Hread :=
  rewrite Hset, Hread; cbv zeta;
  rewrite toCreate_loop, toDelete_loop, !app_nil_l;
  match goal with
  | |- context [filter _ ?desired ] =>
      match goal with
      | |- context [filter _ ?existing ] =>
          rewrite (list_filter_iff _ (fun pid => pid ∉ rec_Policy <$> existing) desired)
            by (intros pid; rewrite existingMap_lookup, lookup_empty; tauto);
          rewrite (list_filter_iff _ (fun rec => rec_Policy rec ∉ desired) existing)
            by (intros rec; rewrite desiredSet_lookup, lookup_empty; cbn [default];
                rewrite orb_false_r, bool_decide_eq_false; tauto);
          fold (instructionsToCreate desired existing);
          fold (recordsToDelete desired existing)
      end
  end.

Lemma Create_trace (r : RolePoliciesAttachmentResource)
    (plan : RolePoliciesAttachmentModel) (desired : list string)
    (existing : list accessRecordResponse) (tr tr1 : list Request) :
  ElementsAs (PolicyIDs plan) = Some desired →
  readRolePolicies r (ValueString (RoleID plan)) tr = (Ok existing, tr1) →
  snd (attachment.Create r plan tr)
  = tr1 ++ reconcileWrites (client r) (ValueString (RoleID plan))
             (instructionsToCreate desired existing)
             (recordsToDelete desired existing).
Proof.
  intros Hset Hread.
  destruct (readRolePolicies_ok _ _ _ _ _ Hread) as [Hid _].
  unfold attachment.Create. diff_loops Hset Hread.
  unfold reconcileWrites.
  destruct (_ || _); [| cbn [snd]; rewrite app_nil_r; reflexivity].
  fold (policiesOp (instructionsToCreate desired existing)
                   (recordsToDelete desired existing)).
  rewrite <- (Update_role_run (client r) _ _ tr1 Hid).
  destruct (client.Update _ _ _ _ _ _) as [[u | e] tr2]; reflexivity.
Qed.

Lemma Update_trace (r : RolePoliciesAttachmentResource)
    (plan : RolePoliciesAttachmentModel) (desired : list string)
    (existing : list accessRecordResponse) (tr tr1 : list Request) :
  ElementsAs (PolicyIDs plan) = Some desired →
  readRolePolicies r (ValueString (RoleID plan)) tr = (Ok existing, tr1) →
  snd (attachment.Update r plan tr)
  = tr1 ++ reconcileWrites (client r) (ValueString (RoleID plan))
             (instructionsToCreate desired existing)
             (recordsToDelete desired existing).
Proof.
  intros Hset Hread.
  destruct (readRolePolicies_ok _ _ _ _ _ Hread) as [Hid _].
  unfold attachment.Update. diff_loops Hset Hread.
  unfold reconcileWrites.
  destruct (_ || _); [| cbn [snd]; rewrite app_nil_r; reflexivity].
  fold (policiesOp (instructionsToCreate desired existing)
                   (recordsToDelete desired existing)).
  rewrite <- (Update_role_run (client r) _ _ tr1 Hid).
  destruct (client.Update _ _ _ _ _ _) as [[u | e] tr2]; reflexivity.
Qed.

(** With nothing to create and nothing to delete, Create and Update only
    record the plan as the new state. *)
Lemma Create_Update_noop (r : RolePoliciesAttachmentResource)
    (plan : RolePoliciesAttachmentModel) (desired : list string)
    (existing : list accessRecordResponse) (tr tr1 : list Request) :
  ElementsAs (PolicyIDs plan) = Some desired →
  readRolePolicies r (ValueString (RoleID plan)) tr = (Ok existing, tr1) →
  instructionsToCreate desired existing = [] →
  recordsToDelete desired existing = [] →
  let done :=
    {| Diagnostics := [];
       State := Some {| ID := StringValue (ValueString (RoleID plan));
                        RoleID := RoleID plan;
                        PolicyIDs := PolicyIDs plan |} |} in
  attachment.Create r plan tr = (done, tr1)
  ∧ attachment.Update r plan tr = (done, tr1).
Proof.
  intros Hset Hread Hc Hd. cbv zeta. split.
  - unfold attachment.Create. diff_loops Hset Hread.
    rewrite Hc, Hd. reflexivity.
  - unfold attachment.Update. diff_loops Hset Hread.
    rewrite Hc, Hd. reflexivity.
Qed.

Lemma Delete_trace (r : RolePoliciesAttachmentResource)
    (state : RolePoliciesAttachmentModel)
    (existing : list accessRecordResponse) (tr tr1 : list Request) :
  readRolePolicies r (ValueString (RoleID state)) tr = (Ok existing, tr1) →
  snd (attachment.Delete r state tr)
  = tr1 ++ match existing with
           | [] => []
           | _ :: _ =>
               [patchRequest (client r) (ValueString (RoleID state))
                  {[ "policies" := VMap {[ "delete" := VStrings (rec_ID <$> existing) ]} ]}]
           end.
Proof.
  intros Hread.
  destruct (readRolePolicies_ok _ _ _ _ _ Hread) as [Hid _].
  unfold attachment.Delete. rewrite Hread.
  destruct existing as [| rec existing];
    [cbn [length Nat.eqb snd]; rewrite app_nil_r; reflexivity |].
  cbn [length Nat.eqb]. cbv zeta. rewrite accessIDs_loop, app_nil_l.
  rewrite <- (Update_role_run (client r) _ _ tr1 Hid).
  destruct (client.Update _ _ _ _ _ _) as [[u | e] tr2]; reflexivity.
Qed.

Lemma policiesOp_create (toCreate : list (gmap string Value)) (toDelete : list string) :
  policiesOp toCreate toDelete !! "create"
  = match toCreate with [] => None | _ :: _ => Some (VMaps toCreate) end.
Proof.
  unfold policiesOp.
  destruct toCreate, toDelete; cbn [length Nat.ltb Nat.leb]; cbv zeta;
    lookup_fields; reflexivity.
Qed.

Lemma policiesOp_delete (toCreate : list (gmap string Value)) (toDelete : list string) :
  policiesOp toCreate toDelete !! "delete"
  = match toDelete with [] => None | _ :: _ => Some (VStrings toDelete) end.
Proof.
  unfold policiesOp.
  destruct toCreate, toDelete; cbn [length Nat.ltb Nat.leb]; cbv zeta;
    lookup_fields; reflexivity.
Qed.

Lemma policiesOp_dom (toCreate : list (gmap string Value)) (toDelete : list string) :
  dom (policiesOp toCreate toDelete) ⊆ {[ "create"; "delete" ]}.
Proof.
  intros k Hk. apply elem_of_dom in Hk as [v Hv].
  rewrite elem_of_union, !elem_of_singleton.
  destruct (decide (k = "create")) as [Hc | Hc]; [left; exact Hc |].
  destruct (decide (k = "delete")) as [Hd | Hd]; [right; exact Hd |].
  exfalso. revert Hv. unfold policiesOp.
  destruct (0 <? length toCreate)%nat, (0 <? length toDelete)%nat; cbv zeta;
    rewrite ?lookup_insert_ne by congruence; rewrite lookup_empty; discriminate.
Qed.

Lemma reconcileWrites_creates (c : Client) (roleID : string)
    (toCreate : list (gmap string Value)) (toDelete : list string) :
  concat (createsOf <$> reconcileWrites c roleID toCreate toDelete) = toCreate.
Proof.
  unfold reconcileWrites.
  destruct toCreate as [| x toCreate], toDelete as [| y toDelete];
    cbn [length Nat.ltb Nat.leb orb]; [reflexivity | | |];
    cbn [fmap list_fmap concat]; rewrite app_nil_r;
    unfold createsOf, patchRequest, newRequest; cbn [ReqBody];
    rewrite lookup_singleton_eq, policiesOp_create; reflexivity.
Qed.

Lemma reconcileWrites_deletes (c : Client) (roleID : string)
    (toCreate : list (gmap string Value)) (toDelete : list string) :
  concat (deletesOf <$> reconcileWrites c roleID toCreate toDelete) = toDelete.
Proof.
  unfold reconcileWrites.
  destruct toCreate as [| x toCreate], toDelete as [| y toDelete];
    cbn [length Nat.ltb Nat.leb orb]; [reflexivity | | |];
    cbn [fmap list_fmap concat]; rewrite app_nil_r;
    unfold deletesOf, patchRequest, newRequest; cbn [ReqBody];
    rewrite lookup_singleton_eq, policiesOp_delete; reflexivity.
Qed.

(** *** The reconciliation scenarios, run against the example remote ends *)

Example scenario_create_from_empty :
  snd (attachment.Create (roleWith []) (examplePlan ["p1"; "p2"]) [])
  = [ readRequest exampleClient "role-1";
      patchRequest exampleClient "role-1"
        {[ "policies" :=
             VMap {[ "create" := VMaps [ {[ "policy" := VString "p1" ]};
                                         {[ "policy" := VString "p2" ]} ] ]} ]} ].
Proof. vm_compute. reflexivity. Qed.

Example scenario_full_replacement :
  snd (attachment.Update exampleResource (examplePlan ["p3"; "p4"]) [])
  = [ readRequest exampleClient "role-1";
      patchRequest exampleClient "role-1"
        {[ "policies" :=
             VMap (<[ "delete" := VStrings ["r1"; "r2"] ]>
                     {[ "create" := VMaps [ {[ "policy" := VString "p3" ]};
                                            {[ "policy" := VString "p4" ]} ] ]}) ]} ].
Proof. vm_compute. reflexivity. Qed.

Example scenario_partial_overlap :
  snd (attachment.Update exampleResource (examplePlan ["p2"; "p3"]) [])
  = [ readRequest exampleClient "role-1";
      patchRequest exampleClient "role-1"
        {[ "policies" :=
             VMap (<[ "delete" := VStrings ["r1"] ]>
                     {[ "create" := VMaps [ {[ "policy" := VString "p3" ]} ] ]}) ]} ].
Proof. vm_compute. reflexivity. Qed.

Example scenario_delete_all :
  snd (attachment.Delete exampleResource (examplePlan []) [])
  = [ readRequest exampleClient "role-1";
      patchRequest exampleClient "role-1"
        {[ "policies" := VMap {[ "delete" := VStrings ["r1"; "r2"] ]} ]} ].
Proof. vm_compute. reflexivity. Qed.

Example scenario_second_run_is_silent :
  snd (attachment.Update exampleResource (examplePlan ["p1"; "p2"]) [])
  = [ readRequest exampleClient "role-1" ].
Proof. vm_compute. reflexivity. Qed.

(** C1. Let the plan hold the duplicate-free desired identifiers [desired]
    and let the read return the records [existing].  Then the create
    instructions carried by the requests of Create, and of Update, are one
    {policy: id} for each desired id that no observed record has, and the
    delete instructions are the identifiers of the observed records whose
    policy is not desired; the requests carry no other instruction. *)
Theorem reconcile_diff_minimal (r : RolePoliciesAttachmentResource)
    (plan : RolePoliciesAttachmentModel) (desired : list string)
    (existing : list accessRecordResponse) (tr tr1 : list Request)
    (Hset : ElementsAs (PolicyIDs plan) = Some desired)
    (Hnodup : NoDup desired)
    (Hread : readRolePolicies r (ValueString (RoleID plan)) tr = (Ok existing, tr1)) :
  concat (createsOf <$> drop (length tr) (snd (attachment.Create r plan tr)))
    = (fun pid => {[ "policy" := VString pid ]})
        <$> filter (fun pid => pid ∉ rec_Policy <$> existing) desired
  ∧ concat (deletesOf <$> drop (length tr) (snd (attachment.Create r plan tr)))
    = rec_ID <$> filter (fun rec => rec_Policy rec ∉ desired) existing
  ∧ concat (createsOf <$> drop (length tr) (snd (attachment.Update r plan tr)))
    = (fun pid => {[ "policy" := VString pid ]})
        <$> filter (fun pid => pid ∉ rec_Policy <$> existing) desired
  ∧ concat (deletesOf <$> drop (length tr) (snd (attachment.Update r plan tr)))
    = rec_ID <$> filter (fun rec => rec_Policy rec ∉ desired) existing
  ∧ NoDup (filter (fun pid => pid ∉ rec_Policy <$> existing) desired)
  ∧ (∀ pid, pid ∈ filter (fun pid => pid ∉ rec_Policy <$> existing) desired
            ↔ pid ∈ desired ∧ pid ∉ rec_Policy <$> existing)
  ∧ (∀ rec, rec ∈ filter (fun rec => rec_Policy rec ∉ desired) existing
            ↔ rec ∈ existing ∧ rec_Policy rec ∈ rec_Policy <$> existing
              ∧ rec_Policy rec ∉ desired).
Proof.
  destruct (readRolePolicies_ok _ _ _ _ _ Hread) as [Hid ->].
  rewrite (Create_trace _ _ _ _ _ _ Hset Hread).
  rewrite (Update_trace _ _ _ _ _ _ Hset Hread).
  rewrite <- !app_assoc, drop_app_length.
  cbn [app fmap list_fmap concat].
  change (createsOf (readRequest _ _)) with (@nil (gmap string Value)).
  change (deletesOf (readRequest _ _)) with (@nil string).
  cbn [app]. change (list_fmap _ _ ?f ?l) with (f <$> l).
  rewrite reconcileWrites_creates, reconcileWrites_deletes.
  repeat (split; [reflexivity |]).
  split; [apply NoDup_filter, Hnodup |].
  split.
  - intros pid. rewrite list_elem_of_filter. tauto.
  - intros rec. rewrite list_elem_of_filter. split.
    + intros [Hn Hin]. split; [exact Hin |]. split; [| exact Hn].
      apply list_elem_of_fmap_2, Hin.
    + intros (Hin & _ & Hn). split; assumption.
Qed.

Lemma reconcile_diff_minimal_witness :
  concat (createsOf <$> snd (attachment.Create exampleResource (examplePlan ["p2"; "p3"]) []))
    = [ {[ "policy" := VString "p3" ]} ]
  ∧ concat (deletesOf <$> snd (attachment.Create exampleResource (examplePlan ["p2"; "p3"]) []))
    = [ "r1" ].
Proof.
  pose proof (reconcile_diff_minimal exampleResource (examplePlan ["p2"; "p3"])
                ["p2"; "p3"]
                [ {| rec_ID := "r1"; rec_Policy := "p1" |};
                  {| rec_ID := "r2"; rec_Policy := "p2" |} ]
                [] [readRequest exampleClient "role-1"]) as H.
  destruct H as (Hc & Hd & _).
  - reflexivity.
  - apply (bool_decide_unpack _). vm_compute. exact I.
  - vm_compute. reflexivity.
  - split.
    + etrans; [exact Hc |]. vm_compute. reflexivity.
    + etrans; [exact Hd |]. vm_compute. reflexivity.
Defined.

(** C2. When the desired identifiers and the observed policy identifiers
    are equal as sets, Create and Update end with the request log as the
    read left it, and so does Delete when nothing is observed: the only
    request issued is the GET of the read, and no PATCH is sent. *)
Theorem reconcile_noop_on_equal_sets (r : RolePoliciesAttachmentResource)
    (plan : RolePoliciesAttachmentModel) (desired : list string)
    (existing : list accessRecordResponse) (tr tr1 : list Request)
    (Hset : ElementsAs (PolicyIDs plan) = Some desired)
    (Hread : readRolePolicies r (ValueString (RoleID plan)) tr = (Ok existing, tr1))
    (Hequal : ∀ pid, pid ∈ desired ↔ pid ∈ rec_Policy <$> existing) :
  attachment.Create r plan tr
    = ({| Diagnostics := [];
          State := Some {| ID := StringValue (ValueString (RoleID plan));
                           RoleID := RoleID plan;
                           PolicyIDs := PolicyIDs plan |} |}, tr1)
  ∧ attachment.Update r plan tr
    = ({| Diagnostics := [];
          State := Some {| ID := StringValue (ValueString (RoleID plan));
                           RoleID := RoleID plan;
                           PolicyIDs := PolicyIDs plan |} |}, tr1)
  ∧ (existing = [] →
     attachment.Delete r plan tr = ({| Diagnostics := []; State := None |}, tr1))
  ∧ ∃ get, tr1 = tr ++ [get] ∧ ReqMethod get = MethodGet ∧ ReqBody get = None.
Proof.
  assert (instructionsToCreate desired existing = []) as Hc.
  { unfold instructionsToCreate. replace (filter _ desired) with (@nil string); [reflexivity |].
    symmetry. apply elem_of_nil_inv. intros pid.
    rewrite list_elem_of_filter, Hequal. tauto. }
  assert (recordsToDelete desired existing = []) as Hd.
  { unfold recordsToDelete.
    replace (filter _ existing) with (@nil accessRecordResponse); [reflexivity |].
    symmetry. apply elem_of_nil_inv. intros rec.
    rewrite list_elem_of_filter, Hequal. intros [Hn Hin].
    apply Hn, list_elem_of_fmap_2, Hin. }
  destruct (Create_Update_noop r plan desired existing tr tr1 Hset Hread Hc Hd)
    as [HC HU].
  split; [exact HC |]. split; [exact HU |]. split.
  - intros ->. unfold attachment.Delete. rewrite Hread. reflexivity.
  - destruct (readRolePolicies_ok _ _ _ _ _ Hread) as [_ ->].
    eexists. split; [reflexivity |]. split; reflexivity.
Qed.

Lemma reconcile_noop_on_equal_sets_witness :
  snd (attachment.Update exampleResource (examplePlan ["p2"; "p1"]) [])
  = [ newRequest exampleClient MethodGet
        "/roles/role-1?fields=id%2Cpolicies.id%2Cpolicies.policy" None ].
Proof.
  pose proof (reconcile_noop_on_equal_sets exampleResource (examplePlan ["p2"; "p1"])
                ["p2"; "p1"]
                [ {| rec_ID := "r1"; rec_Policy := "p1" |};
                  {| rec_ID := "r2"; rec_Policy := "p2" |} ]
                [] [readRequest exampleClient "role-1"]) as H.
  destruct H as (_ & HU & _).
  - reflexivity.
  - vm_compute. reflexivity.
  - intros pid. cbn [fmap list_fmap rec_Policy].
    rewrite !elem_of_cons, !elem_of_nil. tauto.
  - rewrite HU. reflexivity.
Defined.

(** C3. After a successful read, whenever something is to be created or
    deleted, Create and Update issue exactly one further request: a PATCH
    to the role, with the body {policies: op}, where op has the "create"
    key exactly when the to-create list is not empty, the "delete" key
    exactly when the to-delete list is not empty, and no other key.
    Delete, whenever a record is observed, issues exactly one PATCH to the
    role with the body {policies: {delete: ids}} for the identifiers of
    all observed records. *)
Theorem reconcile_single_patch (r : RolePoliciesAttachmentResource)
    (plan : RolePoliciesAttachmentModel) (desired : list string)
    (existing : list accessRecordResponse) (tr tr1 : list Request)
    (Hset : ElementsAs (PolicyIDs plan) = Some desired)
    (Hread : readRolePolicies r (ValueString (RoleID plan)) tr = (Ok existing, tr1)) :
  (filter (fun pid => pid ∉ rec_Policy <$> existing) desired ≠ []
   ∨ filter (fun rec => rec_Policy rec ∉ desired) existing ≠ [] →
   ∃ (patch : Request) (op : gmap string Value),
     snd (attachment.Create r plan tr) = tr1 ++ [patch]
     ∧ snd (attachment.Update r plan tr) = tr1 ++ [patch]
     ∧ ReqMethod patch = MethodPatch
     ∧ ReqURL patch = BaseURL (client r) +:+ "/roles/" +:+ ValueString (RoleID plan)
     ∧ ReqBody patch = Some (VMap {[ "policies" := VMap op ]})
     ∧ op !! "create" =
         match filter (fun pid => pid ∉ rec_Policy <$> existing) desired with
         | [] => None
         | ids => Some (VMaps ((fun pid => {[ "policy" := VString pid ]}) <$> ids))
         end
     ∧ op !! "delete" =
         match filter (fun rec => rec_Policy rec ∉ desired) existing with
         | [] => None
         | recs => Some (VStrings (rec_ID <$> recs))
         end
     ∧ dom op ⊆ {[ "create"; "delete" ]})
  ∧ (existing ≠ [] →
     ∃ patch : Request,
       snd (attachment.Delete r plan tr) = tr1 ++ [patch]
       ∧ ReqMethod patch = MethodPatch
       ∧ ReqURL patch = BaseURL (client r) +:+ "/roles/" +:+ ValueString (RoleID plan)
       ∧ ReqBody patch
         = Some (VMap {[ "policies" :=
                           VMap {[ "delete" := VStrings (rec_ID <$> existing) ]} ]}))
  ∧ ∃ get, tr1 = tr ++ [get] ∧ ReqMethod get = MethodGet ∧ ReqBody get = None.
Proof.
  split; [| split].
  - intros Hchange.
    exists (patchRequest (client r) (ValueString (RoleID plan))
              {[ "policies" := VMap (policiesOp (instructionsToCreate desired existing)
                                                (recordsToDelete desired existing)) ]}).
    exists (policiesOp (instructionsToCreate desired existing)
                       (recordsToDelete desired existing)).
    rewrite (Create_trace _ _ _ _ _ _ Hset Hread).
    rewrite (Update_trace _ _ _ _ _ _ Hset Hread).
    assert (reconcileWrites (client r) (ValueString (RoleID plan))
              (instructionsToCreate desired existing)
              (recordsToDelete desired existing)
            = [patchRequest (client r) (ValueString (RoleID plan))
                 {[ "policies" := VMap (policiesOp (instructionsToCreate desired existing)
                                                   (recordsToDelete desired existing)) ]}])
      as ->.
    { unfold reconcileWrites, instructionsToCreate, recordsToDelete.
      destruct Hchange as [Hc | Hd].
      - destruct (filter _ desired); [congruence | reflexivity].
      - destruct (filter _ existing); [congruence |].
        cbn [fmap list_fmap length Nat.ltb Nat.leb]. rewrite orb_true_r. reflexivity. }
    repeat (split; [reflexivity |]).
    rewrite policiesOp_create, policiesOp_delete.
    split; [| split; [| apply policiesOp_dom]].
    + unfold instructionsToCreate. destruct (filter _ desired); reflexivity.
    + unfold recordsToDelete. destruct (filter _ existing); reflexivity.
  - intros Hne. eexists. rewrite (Delete_trace _ _ _ _ _ Hread).
    destruct existing; [congruence |].
    split; [reflexivity |]. repeat split; reflexivity.
  - destruct (readRolePolicies_ok _ _ _ _ _ Hread) as [_ ->].
    eexists. split; [reflexivity |]. split; reflexivity.
Qed.

Lemma reconcile_single_patch_witness :
  (∃ patch op,
     snd (attachment.Create exampleResource (examplePlan ["p2"; "p3"]) [])
       = [ readRequest exampleClient "role-1"; patch ]
     ∧ ReqBody patch = Some (VMap {[ "policies" := VMap op ]})
     ∧ op !! "create" = Some (VMaps [ {[ "policy" := VString "p3" ]} ])
     ∧ op !! "delete" = Some (VStrings ["r1"]))
  ∧ ∃ patch,
      snd (attachment.Delete exampleResource (examplePlan ["p2"; "p3"]) [])
        = [ readRequest exampleClient "role-1"; patch ]
      ∧ ReqBody patch
        = Some (VMap {[ "policies" := VMap {[ "delete" := VStrings ["r1"; "r2"] ]} ]}).
Proof.
  pose proof (reconcile_single_patch exampleResource (examplePlan ["p2"; "p3"])
                ["p2"; "p3"]
                [ {| rec_ID := "r1"; rec_Policy := "p1" |};
                  {| rec_ID := "r2"; rec_Policy := "p2" |} ]
                [] [readRequest exampleClient "role-1"]) as H.
  destruct H as (HC & HD & _).
  - reflexivity.
  - vm_compute. reflexivity.
  - split.
    + destruct HC as (patch & op & Htrace & _ & _ & _ & Hbody & Hcreate & Hdelete & _);
        [left; vm_compute; discriminate |].
      exists patch, op. split; [exact Htrace |]. split; [exact Hbody |].
      split; [etrans; [exact Hcreate | vm_compute; reflexivity]
             | etrans; [exact Hdelete | vm_compute; reflexivity]].
    + destruct HD as (patch & Htrace & _ & _ & Hbody); [discriminate |].
      exists patch. split; [exact Htrace | exact Hbody].
Defined.

(** C4. When the read of the current access records fails, Create, Update
    and Delete report the read error as their only diagnostic, set no
    state, and leave the request log as the read left it: at most the GET
    of the read has been issued, and no PATCH follows. *)
Theorem read_failure_stops_reconcile (r : RolePoliciesAttachmentResource)
    (plan : RolePoliciesAttachmentModel) (desired : list string)
    (err : error) (tr tr1 : list Request)
    (Hset : ElementsAs (PolicyIDs plan) = Some desired)
    (Hread : readRolePolicies r (ValueString (RoleID plan)) tr = (Err err, tr1)) :
  attachment.Create r plan tr
    = ({| Diagnostics := [AddError "Error Reading Role Policies"
                            (ValueString (RoleID plan)) err];
          State := None |}, tr1)
  ∧ attachment.Update r plan tr
    = ({| Diagnostics := [AddError "Error Reading Role Policies"
                            (ValueString (RoleID plan)) err];
          State := None |}, tr1)
  ∧ attachment.Delete r plan tr
    = ({| Diagnostics := [AddError "Error Reading Role Policies"
                            (ValueString (RoleID plan)) err];
          State := None |}, tr1)
  ∧ (tr1 = tr
     ∨ ∃ get, tr1 = tr ++ [get] ∧ ReqMethod get = MethodGet ∧ ReqBody get = None).
Proof.
  split; [| split; [| split]].
  - unfold attachment.Create. rewrite Hset, Hread. reflexivity.
  - unfold attachment.Update. rewrite Hset, Hread. reflexivity.
  - unfold attachment.Delete. rewrite Hread. reflexivity.
  - destruct (readRolePolicies_run r (ValueString (RoleID plan)) tr)
      as [(_ & E) | (_ & E)]; rewrite Hread in E.
    + left. congruence.
    + right. eexists. split; [exact E |]. split; reflexivity.
Qed.

Lemma read_failure_stops_reconcile_witness :
  attachment.Create missingRoleResource (examplePlan ["p1"]) []
  = ({| Diagnostics := [AddError "Error Reading Role Policies" "role-1"
                          (ErrStatus 404 "{}")];
        State := None |},
     [ readRequest (client missingRoleResource) "role-1" ]).
Proof.
  refine (proj1 (read_failure_stops_reconcile missingRoleResource (examplePlan ["p1"])
                   ["p1"] (ErrStatus 404 "{}") []
                   [readRequest (client missingRoleResource) "role-1"] _ _)).
  - reflexivity.
  - vm_compute. reflexivity.
Defined.

End Reconciler.

(** * Further properties *)

(** ** The client *)

Section ClientRuns.
Import client.

(** What [doRequest] returns, by the answer of the remote end. *)
Lemma doRequest_run (c : Client) (method : Method) (path : string)
    (body : option Value) (tr : list Request) :
  doRequest c method path body tr
  = (match HTTPClient c tr (newRequest c method path body) with
     | inl err => Err (ErrTransport err)
     | inr resp =>
         if (400 <=? StatusCode resp)%Z
         then Err (ErrStatus (StatusCode resp) (Body resp)) else Ok resp
     end, tr ++ [newRequest c method path body]).
Proof.
  unfold doRequest, handleErrorResponse.
  destruct (HTTPClient _ _ _) as [e | resp]; [reflexivity |].
  destruct (400 <=? StatusCode resp)%Z; reflexivity.
Qed.

Lemma bind_snd_doRequest {B} (c : Client) (method : Method) (path : string)
    (body : option Value) (k : Response → M B) (tr : list Request) :
  (∀ resp tr', snd (k resp tr') = tr') →
  snd (bind (doRequest c method path body) k tr)
  = tr ++ [newRequest c method path body].
Proof.
  intros Hk. unfold bind. rewrite doRequest_run.
  destruct (HTTPClient _ _ _) as [e | resp]; [reflexivity |].
  destruct (400 <=? StatusCode resp)%Z; [reflexivity | apply Hk].
Qed.

Lemma decodeInto_snd {A} (decode : string → option A) (resp : Response)
    (tr : list Request) :
  snd (decodeInto decode resp tr) = tr.
Proof. unfold decodeInto. destruct (decode _); reflexivity. Qed.

Lemma decode_result_snd {A} (result : option (string → option A))
    (resp : Response) (tr : list Request) :
  snd (match result with
       | Some decode => let* v := decodeInto decode resp in ret (Some v)
       | None => ret None
       end tr) = tr.
Proof.
  destruct result as [decode |]; [| reflexivity].
  unfold bind, decodeInto. destruct (decode _); reflexivity.
Qed.



(** The first component of a run of [doRequest] followed by [k]. *)
Lemma bind_doRequest_fst {B} (c : Client) (method : Method) (path : string)
    (body : option Value) (k : Response → M B) (tr : list Request) :
  fst (bind (doRequest c method path body) k tr)
  = match HTTPClient c tr (newRequest c method path body) with
    | inl err => Err (ErrTransport err)
    | inr resp =>
        if (400 <=? StatusCode resp)%Z
        then Err (ErrStatus (StatusCode resp) (Body resp))
        else fst (k resp (tr ++ [newRequest c method path body]))
    end.
Proof.
  unfold bind. rewrite doRequest_run.
  destruct (HTTPClient _ _ _) as [e | resp]; [reflexivity |].
  destruct (400 <=? StatusCode resp)%Z; reflexivity.
Qed.





(** X: without query parameters GetWithParams is Get: the same request,
    the same result. *)
Theorem GetWithParams_without_params {A : Type} (c : Client)
    (collection id : string) (decode : string → option A) (tr : list Request) :
  GetWithParams c collection id ∅ decode tr = Get c collection id decode tr.
Proof.
  unfold GetWithParams, Get. rewrite map_size_empty. reflexivity.
Qed.

(** X: the path of an item is the path of its collection followed by "/"
    and the identifier, for system and custom collections alike; and every
    path starts with "/". *)
Theorem buildCollectionPath_item (collection id : string) (Hid : id ≠ "") :
  buildCollectionPath collection id
    = buildCollectionPath collection "" +:+ "/" +:+ id
  ∧ ∃ rest, buildCollectionPath collection "" = String "/" rest.
Proof.
  unfold buildCollectionPath.
  rewrite (bool_decide_eq_true_2 (id ≠ "")) by exact Hid.
  rewrite (bool_decide_eq_false_2 ("" ≠ "")) by (intros H; apply H; reflexivity).
  destruct (default false _).
  - split; [reflexivity | eexists; reflexivity].
  - split; [reflexivity | eexists; reflexivity].
Qed.

Lemma buildCollectionPath_item_witness :
  buildCollectionPath "articles" "1" = buildCollectionPath "articles" "" +:+ "/" +:+ "1".
Proof.
  refine (proj1 (buildCollectionPath_item "articles" "1" _)). discriminate.
Defined.

End ClientRuns.

(** ** Building the client *)

Section ClientSetup.
Import client.

(** X: NewClient checks the base URL, then its syntax, then the token, and
    reports the first failure.  A client it returns has the base URL and
    the token of the configuration, both non-empty, and an HTTP client
    whose timeout is the configured one, or 30 seconds for a configured
    timeout of zero; the timeout is never zero. *)
Theorem NewClient_validates (urlParses : string → bool)
    (httpClient : Z → list Request → Request → string + Response)
    (config : Config) :
  (cfg_BaseURL config = "" →
   NewClient urlParses httpClient config = Err (Errorf "base URL is required"))
  ∧ (cfg_BaseURL config ≠ "" → urlParses (cfg_BaseURL config) = false →
     NewClient urlParses httpClient config = Err (Errorf "invalid base URL"))
  ∧ (cfg_BaseURL config ≠ "" → urlParses (cfg_BaseURL config) = true →
     cfg_Token config = "" →
     NewClient urlParses httpClient config = Err (Errorf "token is required"))
  ∧ ∀ c, NewClient urlParses httpClient config = Ok c →
      BaseURL c = cfg_BaseURL config ∧ BaseURL c ≠ ""
      ∧ urlParses (BaseURL c) = true
      ∧ Token c = cfg_Token config ∧ Token c ≠ ""
      ∧ ∃ timeout, HTTPClient c = httpClient timeout ∧ timeout ≠ 0%Z
          ∧ timeout = (if (cfg_Timeout config =? 0)%Z then 30000000000%Z
                       else cfg_Timeout config).
Proof.
  unfold NewClient. repeat split.
  - intros ->. reflexivity.
  - intros Hb Hp. rewrite bool_decide_eq_false_2 by exact Hb. rewrite Hp. reflexivity.
  - intros Hb Hp Ht. rewrite bool_decide_eq_false_2 by exact Hb. rewrite Hp. cbn [negb].
    cbv zeta. rewrite Ht. reflexivity.
  - revert H. case_bool_decide; [discriminate |].
    destruct (urlParses _); [| discriminate]. cbn [negb]. cbv zeta.
    case_bool_decide; [discriminate |]. intros [= <-]. reflexivity.
  - revert H. case_bool_decide as Hb; [discriminate |].
    destruct (urlParses _); [| discriminate]. cbn [negb]. cbv zeta.
    case_bool_decide; [discriminate |]. intros [= <-]. exact Hb.
  - revert H. case_bool_decide as Hb; [discriminate |].
    destruct (urlParses _) eqn:Hp; [| discriminate]. cbn [negb]. cbv zeta.
    case_bool_decide; [discriminate |]. intros [= <-]. exact Hp.
  - revert H. case_bool_decide as Hb; [discriminate |].
    destruct (urlParses _); [| discriminate]. cbn [negb]. cbv zeta.
    case_bool_decide; [discriminate |]. intros [= <-]. reflexivity.
  - revert H. case_bool_decide as Hb; [discriminate |].
    destruct (urlParses _); [| discriminate]. cbn [negb]. cbv zeta.
    case_bool_decide as Ht; [discriminate |]. intros [= <-]. exact Ht.
  - revert H. case_bool_decide as Hb; [discriminate |].
    destruct (urlParses _); [| discriminate]. cbn [negb]. cbv zeta.
    case_bool_decide as Ht; [discriminate |]. intros [= <-].
    eexists. split; [reflexivity |]. split; [| reflexivity].
    destruct (cfg_Timeout config =? 0)%Z eqn:E; [discriminate |].
    apply Z.eqb_neq, E.
Qed.

(** X: the provider hands a client to the resources exactly when its
    endpoint and its token are known and non-empty and the endpoint parses
    as a URL; a null or unknown endpoint or token counts as empty.  That
    client has the endpoint as its base URL, the token, and the default
    timeout of 30 seconds; otherwise the one diagnostic is an error. *)
Theorem Configure_requires_endpoint_and_token (urlParses : string → bool)
    (httpClient : Z → list Request → Request → string + Response)
    (config : provider.DirectusProviderModel) :
  provider.Configure urlParses httpClient config
  = if bool_decide (ValueString (provider.Endpoint config) ≠ "")
       && urlParses (ValueString (provider.Endpoint config))
       && bool_decide (ValueString (provider.Token config) ≠ "")
    then {| provider.Diagnostics := [];
            provider.ResourceData :=
              Some {| BaseURL := ValueString (provider.Endpoint config);
                      HTTPClient := httpClient 30000000000%Z;
                      Token := ValueString (provider.Token config) |} |}
    else {| provider.Diagnostics :=
              [diag.Error "Unable to Create Directus Client"
                 (Errorf (if bool_decide (ValueString (provider.Endpoint config) = "")
                          then "base URL is required"
                          else if urlParses (ValueString (provider.Endpoint config))
                               then "token is required"
                               else "invalid base URL"))];
            provider.ResourceData := None |}.
Proof.
  unfold provider.Configure, NewClient. cbn [cfg_BaseURL cfg_Token cfg_Timeout].
  destruct (decide (ValueString (provider.Endpoint config) = "")) as [Hb | Hb].
  - rewrite (bool_decide_eq_true_2 _ Hb).
    rewrite (bool_decide_eq_false_2 (_ ≠ "")) by (intros H; apply H, Hb).
    reflexivity.
  - rewrite (bool_decide_eq_false_2 _ Hb).
    rewrite (bool_decide_eq_true_2 (_ ≠ "") Hb). cbn [andb].
    destruct (urlParses _); cbn [negb andb]; [| reflexivity].
    cbv zeta. cbn [Z.eqb].
    destruct (decide (ValueString (provider.Token config) = "")) as [Ht | Ht].
    + rewrite (bool_decide_eq_true_2 _ Ht).
      rewrite (bool_decide_eq_false_2 (_ ≠ "")) by (intros H; apply H, Ht).
      reflexivity.
    + rewrite (bool_decide_eq_false_2 _ Ht).
      rewrite (bool_decide_eq_true_2 (_ ≠ "") Ht). reflexivity.
Qed.

(** X: Ping hands exactly one GET on "/server/ping", without a body, to the
    remote end, and succeeds exactly when the answer has a status below 400
    and the body "pong". *)
Theorem Ping_expects_pong (c : Client) (tr : list Request) :
  snd (Ping c tr) = tr ++ [newRequest c MethodGet "/server/ping" None]
  ∧ (fst (Ping c tr) = Ok tt
     ↔ ∃ resp, HTTPClient c tr (newRequest c MethodGet "/server/ping" None) = inr resp
               ∧ (StatusCode resp < 400)%Z ∧ Body resp = "pong").
Proof.
  unfold Ping. split.
  - apply bind_snd_doRequest. intros resp tr'. cbv zeta.
    case_bool_decide; reflexivity.
  - rewrite bind_doRequest_fst.
    destruct (HTTPClient _ _ _) as [e | resp].
    + split; [discriminate | intros (resp & [=] & _)].
    + destruct (400 <=? StatusCode resp)%Z eqn:E.
      * split; [discriminate |]. intros (resp' & [= <-] & Hs & _).
        apply Z.leb_le in E. lia.
      * apply Z.leb_gt in E. cbv zeta. case_bool_decide as Hb.
        -- split; [discriminate |]. intros (resp' & [= <-] & _ & Hp). congruence.
        -- split; [| reflexivity]. intros _. exists resp.
           split; [reflexivity |]. split; [exact E |].
           destruct (decide (Body resp = "pong")); [assumption | contradiction].
Qed.

End ClientSetup.

(** ** Payload helpers and mappers *)

(** X: buildInputMap keeps every entry whose value is not nil and drops the
    nil ones; it adds no key, never leaves a nil in its result, and applying
    it twice changes nothing more. *)
Theorem buildInputMap_drops_nil (fields : gmap string Value) :
  (∀ key, buildInputMap fields !! key
          = match fields !! key with
            | Some VNil => None
            | entry => entry
            end)
  ∧ (∀ key, buildInputMap fields !! key ≠ Some VNil)
  ∧ dom (buildInputMap fields) ⊆ dom fields
  ∧ buildInputMap (buildInputMap fields) = buildInputMap fields.
Proof.
  assert (∀ m : gmap string Value, ∀ key,
            buildInputMap m !! key
            = match m !! key with Some VNil => None | entry => entry end) as Hlookup.
  { intros m. unfold buildInputMap.
    apply (map_fold_weak_ind
             (fun (r m : gmap string Value) =>
                ∀ key, r !! key
                       = match m !! key with Some VNil => None | entry => entry end)).
    - intros key. rewrite !lookup_empty. reflexivity.
    - intros i x m' r Hi IH key.
      destruct (decide (i = key)) as [<- | Hne].
      + rewrite lookup_insert_eq. specialize (IH i). rewrite Hi in IH.
        destruct x; rewrite ?lookup_insert_eq; try reflexivity. exact IH.
      + rewrite (lookup_insert_ne m') by exact Hne. rewrite <- IH.
        destruct x; rewrite ?lookup_insert_ne by exact Hne; reflexivity. }
  split; [apply Hlookup |]. split; [| split].
  - intros key. rewrite Hlookup. destruct (fields !! key) as [[] |]; discriminate.
  - intros key. rewrite !elem_of_dom, Hlookup.
    destruct (fields !! key) as [[] |]; intros [v Hv]; try discriminate; eauto.
  - apply map_eq. intros key. rewrite (Hlookup (buildInputMap fields)), Hlookup.
    destruct (fields !! key) as [[] |]; reflexivity.
Qed.

(** *** White-space trimming *)

Lemma stripPrefix_split (p l rest : list ascii) :
  Strings.stripPrefix p l = Some rest → l = p ++ rest.
Proof.
  revert l. induction p as [| a p IH]; intros l H.
  - cbn in H. injection H as ->. reflexivity.
  - destruct l as [| b l]; [discriminate |]. cbn in H.
    destruct (Ascii.eqb a b) eqn:E; [| discriminate].
    apply Ascii.eqb_eq in E as ->. cbn. f_equal. apply IH, H.
Qed.

Lemma stripPrefix_app (p l rest u : list ascii) :
  Strings.stripPrefix p l = Some rest →
  Strings.stripPrefix p (l ++ u) = Some (rest ++ u).
Proof.
  revert l. induction p as [| a p IH]; intros l H.
  - cbn in H. injection H as ->. reflexivity.
  - destruct l as [| b l]; [discriminate |]. cbn in H |- *.
    destruct (Ascii.eqb a b); [| discriminate]. apply IH, H.
Qed.

Lemma dropRune_split (runes : list (list ascii)) (l rest : list ascii) :
  Strings.dropRune runes l = Some rest → ∃ rune, l = rune ++ rest.
Proof.
  induction runes as [| r runes IH]; [discriminate |].
  cbn [Strings.dropRune]. destruct (Strings.stripPrefix r l) as [rest' |] eqn:E.
  - intros [= ->]. exists r. apply stripPrefix_split, E.
  - exact IH.
Qed.

Lemma dropRune_app (runes : list (list ascii)) (l u : list ascii) :
  is_Some (Strings.dropRune runes l) → is_Some (Strings.dropRune runes (l ++ u)).
Proof.
  induction runes as [| r runes IH]; [intros [? [=]] |].
  cbn [Strings.dropRune]. destruct (Strings.stripPrefix r l) as [rest |] eqn:E.
  - intros _. rewrite (stripPrefix_app _ _ _ u E). eauto.
  - intros H. destruct (Strings.stripPrefix r (l ++ u)); [eauto | apply IH, H].
Qed.

Lemma trimLoop_split (runes : list (list ascii)) (n : nat) (l : list ascii) :
  ∃ dropped, l = dropped ++ Strings.trimLoop runes n l.
Proof.
  revert l. induction n as [| n IH]; intros l; [exists []; reflexivity |].
  cbn [Strings.trimLoop].
  destruct (Strings.dropRune runes l) as [rest |] eqn:E; [| exists []; reflexivity].
  destruct (dropRune_split _ _ _ E) as [rune ->].
  destruct (IH rest) as [dropped Hd].
  exists (rune ++ dropped). rewrite <- app_assoc, <- Hd. reflexivity.
Qed.

Lemma trimLoop_clean (runes : list (list ascii)) (n : nat) (l : list ascii) :
  Strings.dropRune runes l = None → Strings.trimLoop runes n l = l.
Proof. intros H. destruct n; [reflexivity |]. cbn. rewrite H. reflexivity. Qed.

(** The bytes of a trimmed string lie inside the bytes of the string. *)
Lemma TrimSpace_inside (s : string) :
  ∃ front back,
    list_ascii_of_string s
    = front ++ list_ascii_of_string (Strings.TrimSpace s) ++ back.
Proof.
  unfold Strings.TrimSpace, Strings.trimLeft. cbv zeta.
  rewrite list_ascii_of_string_of_list_ascii.
  destruct (trimLoop_split Strings.spaceRunes
              (length (list_ascii_of_string s)) (list_ascii_of_string s))
    as [front Hfront].
  set (kept := Strings.trimLoop Strings.spaceRunes _ (list_ascii_of_string s)) in *.
  destruct (trimLoop_split (map (@rev ascii) Strings.spaceRunes)
              (length (rev kept)) (rev kept)) as [back Hback].
  exists front, (rev back). rewrite Hfront at 1. f_equal.
  rewrite <- rev_app_distr, <- Hback, rev_involutive. reflexivity.
Qed.

(** Trimming a trimmed string changes nothing. *)
Lemma TrimSpace_idempotent (s : string) :
  Strings.TrimSpace (Strings.TrimSpace s) = Strings.TrimSpace s.
Proof.
  unfold Strings.TrimSpace at 1. cbv zeta.
  unfold Strings.TrimSpace. cbv zeta.
  rewrite list_ascii_of_string_of_list_ascii.
  set (kept := Strings.trimLeft Strings.spaceRunes (list_ascii_of_string s)).
  set (tail := Strings.trimLeft (map (@rev ascii) Strings.spaceRunes) (rev kept)).
  assert (Strings.dropRune Strings.spaceRunes (rev tail) = None) as Hfront.
  { destruct (Strings.dropRune Strings.spaceRunes (rev tail)) eqn:E; [| reflexivity].
    exfalso.
    destruct (trimLoop_split (map (@rev ascii) Strings.spaceRunes)
                (length (rev kept)) (rev kept)) as [dropped Hd].
    fold (Strings.trimLeft (map (@rev ascii) Strings.spaceRunes) (rev kept)) in Hd.
    fold tail in Hd.
    assert (kept = rev tail ++ rev dropped) as Hk
      by (rewrite <- rev_app_distr, <- Hd, rev_involutive; reflexivity).
    pose proof (trimLeft_done (list_ascii_of_string s)) as Hdone. fold kept in Hdone.
    rewrite Hk in Hdone.
    destruct (dropRune_app Strings.spaceRunes (rev tail) (rev dropped)) as [x Hx];
      [eauto | congruence]. }
  unfold Strings.trimLeft at 2. rewrite (trimLoop_clean _ _ _ Hfront).
  rewrite rev_involutive.
  unfold Strings.trimLeft at 1.
  rewrite (trimLoop_clean _ _ tail); [reflexivity |].
  apply trimRight_done.
Qed.

Lemma Contains_bytes (s : string) (c : ascii) :
  Strings.Contains s c = false ↔ c ∉ list_ascii_of_string s.
Proof.
  induction s as [| d s IH]; cbn [Strings.Contains list_ascii_of_string].
  - split; [intros _; apply not_elem_of_nil | reflexivity].
  - rewrite orb_false_iff, IH, not_elem_of_cons, Ascii.eqb_neq.
    split; intros [H1 H2]; split; congruence.
Qed.

Lemma Split_fields_free (s : string) (sep : ascii) :
  Forall (fun field => Strings.Contains field sep = false) (Strings.Split s sep).
Proof.
  induction s as [| c s IH]; cbn [Strings.Split].
  - repeat constructor.
  - destruct (Ascii.eqb c sep) eqn:E.
    + constructor; [reflexivity | exact IH].
    + destruct (Strings.Split s sep) as [| field fields]; [repeat constructor; cbn; rewrite E; reflexivity |].
      inversion IH as [| ? ? Hf Hfs]; subst.
      constructor; [| exact Hfs]. cbn. rewrite E, Hf. reflexivity.
Qed.

(** Sending an array of trimmed, non-empty, comma-free strings that was
    joined with commas gives the array back. *)
Lemma setIPAccessField_Join (input : gmap string Value) (l : list string) :
  l ≠ [] →
  Forall (fun s => Strings.TrimSpace s = s ∧ s ≠ ""
                   ∧ Strings.Contains s "," = false) l →
  setIPAccessField input (StringValue (Strings.Join l ",")) !! "ip_access"
  = Some (VStrings l).
Proof.
  intros Hne Hok. unfold setIPAccessField.
  cbn [IsNull IsUnknown TString_AttrValue orb ValueString].
  destruct l as [| x l]; [congruence |].
  rewrite bool_decide_eq_false_2
    by (apply Join_not_empty; inversion Hok as [| ? ? (_ & Hx & _) _]; exact Hx).
  cbv zeta. rewrite trimmed_segments, app_nil_l.
  rewrite Split_Join;
    [| discriminate | eapply Forall_impl; [exact Hok | intros s (_ & _ & Hs); exact Hs] ].
  replace (filter _ _) with (x :: l).
  - cbn [length Nat.ltb Nat.leb]. apply lookup_insert_eq.
  - clear Hne. generalize dependent (x :: l). clear x l.
    intros wire Hok. induction Hok as [| s wire (Hs & Hn & _) _ IH]; [reflexivity |].
    cbn [fmap list_fmap]. rewrite Hs.
    rewrite filter_cons_True by exact Hn. f_equal. exact IH.
Qed.

(** X: the array sent for an ip_access string is never empty and holds only
    strings that are trimmed, not empty and free of commas; read back from
    the API and sent again, it is the same array. *)
Theorem ip_access_is_normalised (input : gmap string Value) (csv : string)
    (sent : list string)
    (Hfresh : input !! "ip_access" = None)
    (Hsent : setIPAccessField input (StringValue csv) !! "ip_access"
             = Some (VStrings sent)) :
  sent ≠ []
  ∧ Forall (fun s => Strings.TrimSpace s = s ∧ s ≠ ""
                     ∧ Strings.Contains s "," = false) sent
  ∧ pol_IPAccess (toModel (policyWithIPAccess sent))
    = StringValue (Strings.Join sent ",")
  ∧ setIPAccessField input (pol_IPAccess (toModel (policyWithIPAccess sent)))
      !! "ip_access" = Some (VStrings sent).
Proof.
  assert (sent = filter (fun s => s ≠ "")
                   (Strings.TrimSpace <$> Strings.Split csv ",")
          ∧ sent ≠ []) as [Esent Hne].
  { revert Hsent. unfold setIPAccessField.
    cbn [IsNull IsUnknown TString_AttrValue orb ValueString].
    destruct (bool_decide (csv = "")); [rewrite Hfresh; discriminate |].
    cbv zeta. rewrite trimmed_segments, app_nil_l.
    destruct (filter _ _) as [| s l]; [cbn; rewrite Hfresh; discriminate |].
    cbn [length Nat.ltb Nat.leb]. rewrite lookup_insert_eq.
    intros [= <-]. split; [reflexivity | discriminate]. }
  assert (Forall (fun s => Strings.TrimSpace s = s ∧ s ≠ ""
                           ∧ Strings.Contains s "," = false) sent) as Hok.
  { rewrite Esent. apply Forall_forall. intros s Hs.
    apply list_elem_of_filter in Hs as [Hn Hs].
    apply list_elem_of_fmap in Hs as (field & -> & Hfield).
    split; [apply TrimSpace_idempotent |]. split; [exact Hn |].
    pose proof (Split_fields_free csv ",") as Hfree.
    rewrite Forall_forall in Hfree. specialize (Hfree _ Hfield).
    apply Contains_bytes. apply Contains_bytes in Hfree.
    destruct (TrimSpace_inside field) as (front & back & Hin).
    intros Hc. apply Hfree. rewrite Hin, !elem_of_app. right; left. exact Hc. }
  split; [exact Hne |]. split; [exact Hok |].
  assert (pol_IPAccess (toModel (policyWithIPAccess sent))
          = StringValue (Strings.Join sent ",")) as Hmodel.
  { unfold toModel; cbn [pol_IPAccess policyWithIPAccess api_IPAccess].
    destruct sent; [congruence | reflexivity]. }
  split; [exact Hmodel |].
  rewrite Hmodel. apply setIPAccessField_Join; assumption.
Qed.

Lemma ip_access_is_normalised_witness :
  setIPAccessField ∅
    (pol_IPAccess (toModel (policyWithIPAccess ["10.0.0.0/8"; "::1"])))
    !! "ip_access"
  = Some (VStrings ["10.0.0.0/8"; "::1"]).
Proof.
  refine (proj2 (proj2 (proj2
    (ip_access_is_normalised ∅ " 10.0.0.0/8 ,, ::1 ," ["10.0.0.0/8"; "::1"] _ _)))).
  - reflexivity.
  - vm_compute. reflexivity.
Defined.

Lemma setIPAccessField_lookup_ne (input : gmap string Value) (v : TString)
    (key : string) :
  key ≠ "ip_access" → setIPAccessField input v !! key = input !! key.
Proof.
  intros Hk. destruct (setIPAccessField_cases input v) as [-> | (l & _ & ->)];
    [reflexivity |].
  apply lookup_insert_ne. congruence.
Qed.

Lemma setIPAccessField_dom (input : gmap string Value) (v : TString) :
  dom (setIPAccessField input v) ⊆ {[ "ip_access" ]} ∪ dom input.
Proof.
  destruct (setIPAccessField_cases input v) as [-> | (l & _ & ->)].
  - apply union_subseteq_r.
  - rewrite dom_insert. reflexivity.
Qed.

(** Rewrite a lookup through the field setters of a policy payload. *)
Ltac lookup_policy_fields :=
  repeat first
    [ rewrite setStringField_lookup_eq
    | rewrite setBoolField_lookup_eq
    | rewrite setStringField_lookup_ne by discriminate
    | rewrite setBoolField_lookup_ne by discriminate
    | rewrite setIPAccessField_lookup_ne by discriminate
    | rewrite lookup_singleton_eq
    | rewrite lookup_singleton_ne by discriminate
    | rewrite lookup_empty ].

(** X: the create and update payloads of a policy hold no key beyond name,
    icon, description, ip_access, enforce_tfa, admin_access and app_access;
    in particular the identifier is never sent.  The create payload always
    has a name, the empty string when the plan has none. *)
Theorem policy_payload_keys (plan : PolicyResourceModel) :
  dom (policyCreateBody plan)
    ⊆ list_to_set [ "name"; "icon"; "description"; "ip_access";
                    "enforce_tfa"; "admin_access"; "app_access" ]
  ∧ dom (policyUpdateBody plan)
    ⊆ list_to_set [ "name"; "icon"; "description"; "ip_access";
                    "enforce_tfa"; "admin_access"; "app_access" ]
  ∧ policyCreateBody plan !! "id" = None
  ∧ policyUpdateBody plan !! "id" = None
  ∧ policyCreateBody plan !! "name" = Some (VString (ValueString (pol_Name plan)))
  ∧ policyUpdateBody plan !! "name"
    = (if isSet (pol_Name plan)
       then Some (VString (ValueString (pol_Name plan))) else None).
Proof.
  unfold policyCreateBody, policyUpdateBody; cbv zeta.
  split; [| split].
  - repeat (first [ etrans; [apply setStringField_dom |]
                  | etrans; [apply setBoolField_dom |]
                  | etrans; [apply setIPAccessField_dom |] ];
            apply union_least; [set_solver |]).
    rewrite dom_singleton. set_solver.
  - repeat (first [ etrans; [apply setStringField_dom |]
                  | etrans; [apply setBoolField_dom |]
                  | etrans; [apply setIPAccessField_dom |] ];
            apply union_least; [set_solver |]).
    set_solver.
  - repeat split; lookup_policy_fields; reflexivity.
Qed.

(** X: a policy model read from the API always has known booleans, so the
    update payload built from it always sends enforce_tfa, admin_access
    and app_access, false included, and always sends the name; the icon and
    the description are sent exactly when the API returned a non-empty
    one. *)
Theorem policy_payload_after_read (p : policyAPIResponse) :
  policyUpdateBody (toModel p) !! "enforce_tfa" = Some (VBool (api_EnforceTFA p))
  ∧ policyUpdateBody (toModel p) !! "admin_access" = Some (VBool (api_AdminAccess p))
  ∧ policyUpdateBody (toModel p) !! "app_access" = Some (VBool (api_AppAccess p))
  ∧ policyUpdateBody (toModel p) !! "name" = Some (VString (api_Name p))
  ∧ policyUpdateBody (toModel p) !! "icon"
    = (if bool_decide (api_Icon p = "") then None else Some (VString (api_Icon p)))
  ∧ policyUpdateBody (toModel p) !! "description"
    = (if bool_decide (api_Description p = "") then None
       else Some (VString (api_Description p))).
Proof.
  unfold policyUpdateBody, toModel, stringOrNull; cbv zeta.
  cbn [pol_Name pol_Icon pol_Description pol_IPAccess pol_EnforceTFA
       pol_AdminAccess pol_AppAccess].
  repeat split; lookup_policy_fields; try reflexivity.
  - destruct (decide (api_Icon p = "")) as [E | E].
    + rewrite (bool_decide_eq_true_2 _ E).
      rewrite (bool_decide_eq_false_2 (_ ≠ "")) by (intros H; apply H, E). reflexivity.
    + rewrite (bool_decide_eq_false_2 _ E), (bool_decide_eq_true_2 (_ ≠ "") E).
      reflexivity.
  - destruct (decide (api_Description p = "")) as [E | E].
    + rewrite (bool_decide_eq_true_2 _ E).
      rewrite (bool_decide_eq_false_2 (_ ≠ "")) by (intros H; apply H, E). reflexivity.
    + rewrite (bool_decide_eq_false_2 _ E), (bool_decide_eq_true_2 (_ ≠ "") E).
      reflexivity.
Qed.


(** X: a collection model read from the API always has known hidden and
    singleton flags, false when the response has no meta.  The update
    payload built from it therefore always has a "meta" object with both
    flags, and never the "collection" or "schema" key. *)
Theorem collection_payload_after_read (w : collection.collectionAPIResponse) :
  coll_Hidden (collection.toModel w)
    = BoolValue (match collection.wire_Meta w with
                 | Some meta => collection.meta_Hidden meta
                 | None => false
                 end)
  ∧ coll_Singleton (collection.toModel w)
    = BoolValue (match collection.wire_Meta w with
                 | Some meta => collection.meta_Singleton meta
                 | None => false
                 end)
  ∧ coll_Collection (collection.toModel w) = StringValue (collection.wire_Collection w)
  ∧ buildCollectionInput (collection.toModel w) false !! "collection" = None
  ∧ buildCollectionInput (collection.toModel w) false !! "schema" = None
  ∧ ∃ meta : gmap string Value,
      buildCollectionInput (collection.toModel w) false !! "meta" = Some (VMap meta)
      ∧ meta !! "hidden"
        = Some (VBool (match collection.wire_Meta w with
                       | Some meta => collection.meta_Hidden meta
                       | None => false
                       end))
      ∧ meta !! "singleton"
        = Some (VBool (match collection.wire_Meta w with
                       | Some meta => collection.meta_Singleton meta
                       | None => false
                       end))
      ∧ meta !! "icon"
        = match collection.wire_Meta w with
          | Some meta =>
              if bool_decide (collection.meta_Icon meta = "") then None
              else Some (VString (collection.meta_Icon meta))
          | None => None
          end.
Proof.
  split; [unfold collection.toModel; destruct (collection.wire_Meta w); reflexivity |].
  split; [unfold collection.toModel; destruct (collection.wire_Meta w); reflexivity |].
  split; [unfold collection.toModel; destruct (collection.wire_Meta w); reflexivity |].
  unfold buildCollectionInput; cbv zeta.
  set (meta := setStringField _ "color" _).
  assert (meta !! "hidden"
          = Some (VBool (match collection.wire_Meta w with
                         | Some meta => collection.meta_Hidden meta
                         | None => false
                         end))) as Hhidden.
  { unfold meta, collection.toModel. destruct (collection.wire_Meta w);
      cbn [coll_Icon coll_Note coll_Hidden coll_Singleton coll_SortField
           coll_Archive coll_Color]; lookup_fields; reflexivity. }
  assert ((0 <? size meta)%nat = true) as ->.
  { apply Nat.ltb_lt. destruct (size meta) eqn:E; [| lia].
    apply map_size_empty_iff in E. rewrite E, lookup_empty in Hhidden. discriminate. }
  split; [rewrite lookup_insert_ne by discriminate; apply lookup_empty |].
  split; [rewrite lookup_insert_ne by discriminate; apply lookup_empty |].
  exists meta. split; [apply lookup_insert_eq |]. split; [exact Hhidden |].
  unfold meta, collection.toModel, stringOrNull.
  destruct (collection.wire_Meta w) as [m |];
    cbn [coll_Icon coll_Note coll_Hidden coll_Singleton coll_SortField
         coll_Archive coll_Color].
  - split; [lookup_fields; reflexivity |]. lookup_fields.
    destruct (decide (collection.meta_Icon m = "")) as [E | E].
    + rewrite (bool_decide_eq_true_2 _ E).
      rewrite (bool_decide_eq_false_2 (_ ≠ "")) by (intros H; apply H, E). reflexivity.
    + rewrite (bool_decide_eq_false_2 _ E), (bool_decide_eq_true_2 (_ ≠ "") E).
      reflexivity.
  - split; lookup_fields; reflexivity.
Qed.

(** ** The role, policy and collection resources *)

Section Resources.
Import client.

Lemma bind_doRequest_run {B} (c : Client) (method : Method) (path : string)
    (body : option Value) (k : Response → M B) (read : Response → result B)
    (tr : list Request) :
  (∀ resp tr', k resp tr' = (read resp, tr')) →
  bind (doRequest c method path body) k tr
  = (answered c tr (newRequest c method path body) read,
     tr ++ [newRequest c method path body]).
Proof.
  intros Hk. unfold bind, answered. rewrite doRequest_run.
  destruct (HTTPClient _ _ _) as [e | resp]; [reflexivity |].
  destruct (400 <=? StatusCode resp)%Z; [reflexivity | apply Hk].
Qed.

Lemma Get_run {A} (c : Client) (collection id : string)
    (decode : string → option A) (tr : list Request) :
  collection ≠ "" → id ≠ "" →
  Get c collection id decode tr
  = (answered c tr (newRequest c MethodGet (buildCollectionPath collection id) None)
       (fun resp => match decode (Body resp) with
                    | Some v => Ok v
                    | None => Err ErrDecode
                    end),
     tr ++ [newRequest c MethodGet (buildCollectionPath collection id) None]).
Proof.
  intros Hc Hid. unfold Get.
  rewrite (bool_decide_eq_false_2 _ Hc), (bool_decide_eq_false_2 _ Hid). cbv zeta.
  apply bind_doRequest_run. intros resp tr'. unfold decodeInto.
  destruct (decode _); reflexivity.
Qed.

Lemma Create_run {A} (c : Client) (collection : string) (data : Value)
    (decode : string → option A) (tr : list Request) :
  collection ≠ "" →
  client.Create c collection (Some data) (Some decode) tr
  = (answered c tr (newRequest c MethodPost (buildCollectionPath collection "") (Some data))
       (fun resp => match decode (Body resp) with
                    | Some v => Ok (Some v)
                    | None => Err ErrDecode
                    end),
     tr ++ [newRequest c MethodPost (buildCollectionPath collection "") (Some data)]).
Proof.
  intros Hc. unfold client.Create.
  rewrite (bool_decide_eq_false_2 _ Hc).
  rewrite bool_decide_eq_false_2 by discriminate. cbv zeta.
  apply bind_doRequest_run. intros resp tr'. unfold bind, decodeInto.
  destruct (decode _); reflexivity.
Qed.

Lemma Update_run {A} (c : Client) (collection id : string) (data : Value)
    (decode : string → option A) (tr : list Request) :
  collection ≠ "" → id ≠ "" →
  client.Update c collection id (Some data) (Some decode) tr
  = (answered c tr (newRequest c MethodPatch (buildCollectionPath collection id) (Some data))
       (fun resp => match decode (Body resp) with
                    | Some v => Ok (Some v)
                    | None => Err ErrDecode
                    end),
     tr ++ [newRequest c MethodPatch (buildCollectionPath collection id) (Some data)]).
Proof.
  intros Hc Hid. unfold client.Update.
  rewrite (bool_decide_eq_false_2 _ Hc), (bool_decide_eq_false_2 _ Hid).
  rewrite bool_decide_eq_false_2 by discriminate. cbv zeta.
  apply bind_doRequest_run. intros resp tr'. unfold bind, decodeInto.
  destruct (decode _); reflexivity.
Qed.

Lemma Delete_run (c : Client) (collection id : string) (tr : list Request) :
  collection ≠ "" → id ≠ "" →
  client.Delete c collection id tr
  = (answered c tr (newRequest c MethodDelete (buildCollectionPath collection id) None)
       (fun _ => Ok tt),
     tr ++ [newRequest c MethodDelete (buildCollectionPath collection id) None]).
Proof.
  intros Hc Hid. unfold client.Delete.
  rewrite (bool_decide_eq_false_2 _ Hc), (bool_decide_eq_false_2 _ Hid). cbv zeta.
  apply bind_doRequest_run. intros resp tr'. reflexivity.
Qed.

Lemma answered_ok {A} (c : Client) (tr : list Request) (req : Request)
    (read : Response → result A) (resp : Response) :
  HTTPClient c tr req = inr resp → (StatusCode resp < 400)%Z →
  answered c tr req read = read resp.
Proof.
  intros H Hs. unfold answered. rewrite H.
  replace (400 <=? StatusCode resp)%Z with false by (symmetry; apply Z.leb_gt, Hs).
  reflexivity.
Qed.

Lemma buildCollectionPath_system (collection id : string) :
  collection ∈ [ "roles"; "policies"; "collections" ] →
  buildCollectionPath collection id
  = if bool_decide (id ≠ "") then "/" +:+ collection +:+ "/" +:+ id
    else "/" +:+ collection.
Proof.
  intros Hin. unfold buildCollectionPath. rewrite systemCollections_lookup.
  rewrite bool_decide_eq_true_2; [reflexivity |].
  rewrite !elem_of_cons in Hin. rewrite !elem_of_cons.
  destruct Hin as [-> | [-> | [-> | Hin]]]; [tauto | tauto | tauto |].
  apply elem_of_nil in Hin. contradiction.
Qed.



(** X: an operation addressed by identifier on a role, a policy or a
    collection whose identifier is null, unknown or empty hands nothing to
    the remote end: Read, Update and Delete report "id is required" and
    leave the request log as it was. *)
Theorem missing_identifier_issues_nothing (rr : role.RoleResource)
    (pr : policy.PolicyResource) (cr : collection.CollectionResource)
    (roleData : RoleResourceModel) (policyData : PolicyResourceModel)
    (collectionData : CollectionResourceModel) (tr : list Request)
    (Hrole : ValueString (role_ID roleData) = "")
    (Hpolicy : ValueString (pol_ID policyData) = "")
    (Hcollection : ValueString (coll_Collection collectionData) = "") :
  role.Read rr roleData tr
    = ({| role.Diagnostics := [diag.Error "Error Reading Role" (Errorf "id is required")];
          role.State := None |}, tr)
  ∧ role.Update rr roleData tr
    = ({| role.Diagnostics := [diag.Error "Error Updating Role" (Errorf "id is required")];
          role.State := None |}, tr)
  ∧ (snd (role.Delete rr roleData tr) = tr
     ∧ diag.Error "Error Deleting Role" (Errorf "id is required")
         ∈ role.Diagnostics (fst (role.Delete rr roleData tr)))
  ∧ policy.Read pr policyData tr
    = ({| policy.Diagnostics := [diag.Error "Error Reading Policy" (Errorf "id is required")];
          policy.State := None |}, tr)
  ∧ policy.Update pr policyData tr
    = ({| policy.Diagnostics := [diag.Error "Error Updating Policy" (Errorf "id is required")];
          policy.State := None |}, tr)
  ∧ policy.Delete pr policyData tr
    = ({| policy.Diagnostics := [diag.Error "Error Deleting Policy" (Errorf "id is required")];
          policy.State := None |}, tr)
  ∧ collection.Read cr collectionData tr
    = ({| collection.Diagnostics :=
            [diag.Error "Error Reading Collection" (Errorf "id is required")];
          collection.State := None |}, tr)
  ∧ collection.Update cr collectionData tr
    = ({| collection.Diagnostics :=
            [diag.Error "Error Updating Collection" (Errorf "id is required")];
          collection.State := None |}, tr)
  ∧ collection.Delete cr collectionData tr
    = ({| collection.Diagnostics :=
            [diag.Error "Error Deleting Collection" (Errorf "id is required")];
          collection.State := None |}, tr).
Proof.
  unfold role.Read, role.Update, role.Delete, policy.Read, policy.Update,
    policy.Delete, collection.Read, collection.Update, collection.Delete.
  rewrite Hrole, Hpolicy, Hcollection.
  repeat split; try reflexivity.
  destruct (role_Children roleData) as [| | [| child children]]; cbn;
    repeat first [apply list_elem_of_here | apply list_elem_of_further].
Qed.

Lemma missing_identifier_issues_nothing_witness :
  role.Update exampleRoles (roleWithChildren StringUnknown) []
  = ({| role.Diagnostics := [diag.Error "Error Updating Role" (Errorf "id is required")];
        role.State := None |}, []).
Proof.
  refine (proj1 (proj2 (missing_identifier_issues_nothing exampleRoles examplePolicies
    exampleCollections (roleWithChildren StringUnknown)
    policyBlankIPAccess_noID collectionUnnamed [] _ _ _))); reflexivity.
Defined.







End Resources.

(** ** The reconciler, continued *)

Section ReconcilerMore.
Import client attachment.

Lemma policyElements_loop (records : list accessRecordResponse) (acc : list string) :
  foldl (fun policyElements rec => policyElements ++ [rec_Policy rec]) acc records
  = acc ++ (rec_Policy <$> records).
Proof.
  revert acc. induction records as [| rec records IH]; intros acc.
  - cbn. rewrite app_nil_r. reflexivity.
  - cbn [foldl]. rewrite IH, fmap_cons, <- app_assoc. reflexivity.
Qed.

Lemma policyOf_instructions (ids : list string) :
  omap policyOf ((fun pid => {[ "policy" := VString pid ]}) <$> ids) = ids.
Proof.
  induction ids as [| pid ids IH]; [reflexivity |].
  cbn [fmap list_fmap omap list_omap]. unfold policyOf at 1.
  rewrite lookup_singleton_eq. f_equal. exact IH.
Qed.

(** The instructions carried by what Create, Update and Delete issue. *)
Lemma issued_instructions (r : RolePoliciesAttachmentResource)
    (plan : RolePoliciesAttachmentModel) (desired : list string)
    (existing : list accessRecordResponse) (tr tr1 : list Request) :
  ElementsAs (PolicyIDs plan) = Some desired →
  readRolePolicies r (ValueString (RoleID plan)) tr = (Ok existing, tr1) →
  concat (createsOf <$> drop (length tr) (snd (attachment.Create r plan tr)))
    = instructionsToCreate desired existing
  ∧ concat (deletesOf <$> drop (length tr) (snd (attachment.Create r plan tr)))
    = recordsToDelete desired existing
  ∧ concat (createsOf <$> drop (length tr) (snd (attachment.Update r plan tr)))
    = instructionsToCreate desired existing
  ∧ concat (deletesOf <$> drop (length tr) (snd (attachment.Update r plan tr)))
    = recordsToDelete desired existing
  ∧ concat (createsOf <$> drop (length tr) (snd (attachment.Delete r plan tr))) = []
  ∧ concat (deletesOf <$> drop (length tr) (snd (attachment.Delete r plan tr)))
    = rec_ID <$> existing.
Proof.
  intros Hset Hread.
  rewrite (Create_trace _ _ _ _ _ _ Hset Hread).
  rewrite (Update_trace _ _ _ _ _ _ Hset Hread).
  rewrite (Delete_trace _ _ _ _ _ Hread).
  destruct (readRolePolicies_ok _ _ _ _ _ Hread) as [Hid ->].
  rewrite <- !app_assoc, !drop_app_length.
  cbn [app fmap list_fmap concat].
  change (createsOf (readRequest _ _)) with (@nil (gmap string Value)).
  change (deletesOf (readRequest _ _)) with (@nil string).
  cbn [app]. change (list_fmap _ _ ?f ?l) with (f <$> l).
  rewrite reconcileWrites_creates, reconcileWrites_deletes.
  repeat (split; [reflexivity |]).
  destruct existing as [| rec existing]; [split; reflexivity |].
  cbn [fmap list_fmap concat]. rewrite !app_nil_r.
  unfold createsOf, deletesOf, patchRequest, newRequest; cbn [ReqBody].
  rewrite !lookup_singleton_eq. rewrite lookup_singleton_ne by discriminate.
  split; reflexivity.
Qed.

(** X: the diff converges the role to the desired set.  With access-record
    identifiers that are pairwise distinct, a policy is desired exactly when
    Create (or Update) asks to create it or an observed record of it is not
    among those it asks to delete; and Delete asks to delete every observed
    record and to create nothing. *)
Theorem reconcile_converges (r : RolePoliciesAttachmentResource)
    (plan : RolePoliciesAttachmentModel) (desired : list string)
    (existing : list accessRecordResponse) (tr tr1 : list Request)
    (Hset : ElementsAs (PolicyIDs plan) = Some desired)
    (Hread : readRolePolicies r (ValueString (RoleID plan)) tr = (Ok existing, tr1))
    (Hids : NoDup (rec_ID <$> existing)) :
  (∀ pid,
     pid ∈ desired
     ↔ pid ∈ omap policyOf
               (concat (createsOf <$> drop (length tr) (snd (attachment.Create r plan tr))))
       ∨ ∃ rec, rec ∈ existing ∧ rec_Policy rec = pid
                ∧ rec_ID rec ∉ concat (deletesOf <$>
                                  drop (length tr) (snd (attachment.Create r plan tr))))
  ∧ (∀ pid,
       pid ∈ desired
       ↔ pid ∈ omap policyOf
                 (concat (createsOf <$> drop (length tr) (snd (attachment.Update r plan tr))))
         ∨ ∃ rec, rec ∈ existing ∧ rec_Policy rec = pid
                  ∧ rec_ID rec ∉ concat (deletesOf <$>
                                    drop (length tr) (snd (attachment.Update r plan tr))))
  ∧ omap policyOf
      (concat (createsOf <$> drop (length tr) (snd (attachment.Delete r plan tr)))) = []
  ∧ ∀ rec, rec ∈ existing →
      rec_ID rec ∈ concat (deletesOf <$>
                     drop (length tr) (snd (attachment.Delete r plan tr))).
Proof.
  destruct (issued_instructions r plan desired existing tr tr1 Hset Hread)
    as (-> & -> & -> & -> & -> & ->).
  assert (∀ pid,
            pid ∈ desired
            ↔ pid ∈ omap policyOf (instructionsToCreate desired existing)
              ∨ ∃ rec, rec ∈ existing ∧ rec_Policy rec = pid
                       ∧ rec_ID rec ∉ recordsToDelete desired existing) as Hconv.
  { intros pid. unfold instructionsToCreate, recordsToDelete.
    rewrite policyOf_instructions, list_elem_of_filter. split.
    - intros Hin. destruct (decide (pid ∈ rec_Policy <$> existing)) as [Hobs | Hobs].
      + right. apply list_elem_of_fmap in Hobs as (rec & -> & Hrec).
        exists rec. split; [exact Hrec |]. split; [reflexivity |].
        intros Hdel. apply list_elem_of_fmap in Hdel as (rec' & Hsame & Hrec').
        apply list_elem_of_filter in Hrec' as [Hno Hrec'].
        assert (rec = rec') as <-; [| contradiction].
        apply list_elem_of_lookup in Hrec as [i Hi].
        apply list_elem_of_lookup in Hrec' as [j Hj].
        assert (i = j) as <-; [| congruence].
        apply (NoDup_lookup _ i j (rec_ID rec) Hids);
          rewrite list_lookup_fmap; [rewrite Hi | rewrite Hj, Hsame]; reflexivity.
      + left. split; assumption.
    - intros [[_ Hin] | (rec & Hrec & <- & Hkept)]; [exact Hin |].
      destruct (decide (rec_Policy rec ∈ desired)) as [Hin | Hout]; [exact Hin |].
      exfalso. apply Hkept. apply list_elem_of_fmap_2.
      apply list_elem_of_filter. split; assumption. }
  split; [exact Hconv |]. split; [exact Hconv |]. split; [reflexivity |].
  intros rec Hrec. apply list_elem_of_fmap_2, Hrec.
Qed.

Lemma reconcile_converges_witness :
  "p3" ∈ omap policyOf
           (concat (createsOf <$>
              snd (attachment.Create exampleResource (examplePlan ["p2"; "p3"]) []))).
Proof.
  pose proof (reconcile_converges exampleResource (examplePlan ["p2"; "p3"])
                ["p2"; "p3"]
                [ {| rec_ID := "r1"; rec_Policy := "p1" |};
                  {| rec_ID := "r2"; rec_Policy := "p2" |} ]
                [] [readRequest exampleClient "role-1"]) as H.
  destruct H as (HC & _).
  - reflexivity.
  - vm_compute. reflexivity.
  - apply (bool_decide_unpack _). vm_compute. exact I.
  - destruct (proj1 (HC "p3")) as [Hcreated | (rec & Hrec & Hpolicy & _)].
    + apply list_elem_of_further, list_elem_of_here.
    + exact Hcreated.
    + exfalso. cbn in Hrec. rewrite !elem_of_cons, elem_of_nil in Hrec.
      destruct Hrec as [-> | [-> | []]]; discriminate.
Defined.







End ReconcilerMore.
